(** * XBoxController: callback registry and event dispatch

    A shallow embedding of [src/XBoxController.py] (Python 3; the file uses
    nested same-quote f-strings, so it needs Python 3.12 or later).

    - Python dictionaries are [gmap]s; a lookup [d[k]] of an absent key
      raises [KeyError k].
    - The callback registry is a dictionary *object*: the class attribute
      [_callbacks] is one object shared by every instance until
      [setCallbacks] binds an instance attribute of the same name.  The
      store of dictionary objects is modelled explicitly, and an instance
      holds a reference into it.
    - Axis values are IEEE doubles ([PrimFloat]), as pygame delivers them.
    - What the code does to the outside world (printing, invoking a
      callback) is recorded in a trace; exceptions are values. *)

From Stdlib Require Import ZArith Lia List.
From Stdlib Require Import Floats.
From stdpp Require Import gmap strings list fin_maps.

(* Decimal literals such as 0.2 denote the nearest double, as in Python. *)
#[local] Set Warnings "-inexact-float".

Local Open Scope string_scope.
Local Open Scope Z_scope.

(** ** Values *)

(** A Python function object, identified by its name. *)
Definition callable := string.

(** What a registry slot holds: [None] or a function. *)
Inductive pyval :=
| PyNone
| PyFunc (f : callable).

(** Truth value of a slot, as tested by [if self._callbacks[...]:]. *)
Definition truthy (v : pyval) : bool :=
  match v with
  | PyNone => false
  | PyFunc _ => true
  end.

(** Arguments handed to a callback. *)
Inductive arg :=
| AInt (n : Z)
| AFloat (x : float)
| ATuple (x y : Z).

(** The pygame events the listener looks at; [event.type] selects the
    constructor, the other attributes are its fields. *)
Inductive event :=
| JOYBUTTONDOWN (button : Z)
| JOYBUTTONUP (button : Z)
| JOYAXISMOTION (axis : Z) (value : float)
| JOYHATMOTION (value : Z * Z)
| OTHEREVENT (type : Z).

(** ** Exceptions and effects *)

Inductive key :=
| KInt (n : Z)
| KStr (s : string).

Inductive exn :=
| KeyError (k : key)
| TypeError (msg : string)
| IOError (msg : string).

(** One call of [print]. *)
Inductive output :=
| OutEvent (e : event)
| OutText (s : string)
| OutHat (s : string) (v : Z * Z).

Inductive effect :=
| Stdout (o : output)
| Invoke (f : callable) (args : list arg).

(** ** The store of dictionary objects *)

Definition loc := nat.

Abbreviation dict := (gmap string pyval).
Abbreviation heap := (gmap loc (gmap string pyval)).

(** ** A monad for the store, the trace of effects and exceptions *)

(** What a run leaves behind: the effects it performed (in order), the
    store, and either the exception that ended it or its value.  The store
    and the trace of a run that raises are those at the point of raising. *)
Record result (A : Type) := Result {
  trace : list effect;
  store : heap;
  outcome : exn + A
}.
Arguments Result {A}.
Arguments trace {A}.
Arguments store {A}.
Arguments outcome {A}.

Definition Py (A : Type) : Type := heap -> result A.

Definition ret {A} (a : A) : Py A := fun h => Result [] h (inr a).

Definition raise {A} (e : exn) : Py A := fun h => Result [] h (inl e).

Definition bind {A B} (m : Py A) (k : A -> Py B) : Py B :=
  fun h =>
    let r := m h in
    match outcome r with
    | inl e => Result (trace r) (store r) (inl e)
    | inr a =>
        let r' := k a (store r) in
        Result (trace r ++ trace r')%list (store r') (outcome r')
    end.

Declare Scope py_scope.
Delimit Scope py_scope with py.
Notation "x <- m ;; k" := (bind m (fun x => k))
  (at level 100, m at next level, right associativity) : py_scope.
Notation "m ;; k" := (bind m (fun _ => k))
  (at level 100, right associativity) : py_scope.
Local Open Scope py_scope.

Definition emit (e : effect) : Py unit := fun h => Result [e] h (inr tt).

Definition print (o : output) : Py unit := emit (Stdout o).

(** [f(args)].  The callee is opaque: the call is recorded, and the callee
    is taken to return normally; calling [None] is a [TypeError]. *)
Definition call (f : pyval) (args : list arg) : Py unit :=
  match f with
  | PyFunc c => emit (Invoke c args)
  | PyNone => raise (TypeError "'NoneType' object is not callable")
  end.

(** The current contents of the dictionary object at [l].  A reference
    always points to an object; a location never allocated reads as the
    empty dictionary. *)
Definition deref (l : loc) : Py dict := fun h => Result [] h (inr (h !!! l)).

(** [d[k] = v] on the dictionary object at [l]. *)
Definition setitem (l : loc) (k : string) (v : pyval) : Py unit :=
  fun h => Result [] (<[l := <[k := v]> (h !!! l)]> h) (inr tt).

(** A dictionary display [{...}]: a new object at an unused location. *)
Definition alloc (d : dict) : Py loc :=
  fun h => Result [] (<[fresh (dom h) := d]> h) (inr (fresh (dom h))).

(** [d[k]] for an integer-keyed and a string-keyed dictionary. *)
Definition getitem_int {V} (d : gmap Z V) (k : Z) : Py V :=
  match d !! k with
  | Some v => ret v
  | None => raise (KeyError (KInt k))
  end.

Definition getitem_str {V} (d : gmap string V) (k : string) : Py V :=
  match d !! k with
  | Some v => ret v
  | None => raise (KeyError (KStr k))
  end.

(** [c and e], as a condition: [e] is evaluated only when [c] holds. *)
Definition and_then (c : bool) (e : Py pyval) : Py bool :=
  if c then (v <- e ;; ret (truthy v)) else ret false.

(** The callback invocations among the effects of a run. *)
Definition invocations (t : list effect) : list (callable * list arg) :=
  omap (fun e => match e with
                 | Invoke f args => Some (f, args)
                 | Stdout _ => None
                 end) t.

(** ** The class *)

Module XBoxController.

(** Button mappings *)
Definition BUTTONS : gmap Z string :=
  list_to_map [(0, "a"); (1, "b"); (2, "x"); (3, "y"); (4, "left_bumper");
               (5, "right_bumper"); (6, "back"); (7, "start");
               (8, "left_stick_button"); (9, "right_stick_button")].

(** Axis mappings *)
Definition AXIS : gmap Z string :=
  list_to_map [(0, "left_stick_x"); (1, "left_stick_y"); (2, "right_stick_x");
               (3, "right_stick_y"); (4, "left_trigger"); (5, "right_trigger")].

(** The fifteen channel names of the class-level registry. *)
Definition channels : list string :=
  ["x"; "y"; "a"; "b"; "left_trigger"; "right_trigger"; "left_bumper";
   "right_bumper"; "back"; "start"; "left_stick"; "right_stick";
   "left_stick_button"; "right_stick_button"; "hat"].

(** Initial value of the class attribute [_callbacks]: every channel [None]. *)
Definition class_callbacks : dict :=
  list_to_map ((fun c => (c, PyNone)) <$> channels).

(** Where the class attribute's dictionary object lives. *)
Definition class_callbacks_loc : loc := 0%nat.

(** The store when the class statement has been executed. *)
Definition initial_heap : heap := {[ class_callbacks_loc := class_callbacks ]}.

Inductive Joystick := mkJoystick (id : nat) (initialized : bool).
Inductive Clock := mkClock.

(** An instance.  [_callbacks] is the *instance* attribute: [None] until
    [setCallbacks] binds it, and then attribute lookup no longer reaches the
    class dictionary.  The other attributes hold immutable values, for which
    an instance attribute and an inherited class attribute read the same. *)
Record t := mk {
  _controller : option Joystick;
  _callbacks : option loc;
  __clock : option Clock;
  __hz : Z;
  sticks_threshold : float;
  DEBUG : bool
}.

(** Attribute lookup [self._callbacks]: instance first, then class. *)
Definition callbacks_ref (self : t) : loc :=
  default class_callbacks_loc (_callbacks self).

(** The registry [self] sees in store [h]. *)
Definition registry (self : t) (h : heap) : dict := h !!! callbacks_ref self.

(** [self._callbacks[name]] *)
Definition callbacks_getitem (self : t) (name : string) : Py pyval :=
  d <- deref (callbacks_ref self) ;; getitem_str d name.

(** *** Constructor

    [count] is what [pygame.joystick.get_count()] answers.  The operand of
    [raise] in the source is the tuple [(IOError, "No controller detected")];
    Python 3 refuses to raise a tuple and raises [TypeError] in its place. *)
Definition __init__ (count : nat) : exn + t :=
  if (count <? 1)%nat then
    inl (TypeError "exceptions must derive from BaseException")
  else
    inr {| _controller := Some (mkJoystick 0 true);
           _callbacks := None;
           __clock := Some mkClock;
           __hz := 20;
           sticks_threshold := 0.2%float;
           DEBUG := false |}.

(** What a method hands back: [None] or a boolean. *)
Inductive retval :=
| RetNone
| RetBool (b : bool).

(** [connect]: the guard returns [False]; the other path runs off the end
    of the function, which in Python returns [None]. *)
Definition connect (self : t) (count : nat) : retval * t :=
  if (count <? 1)%nat then
    (RetBool false, self)
  else
    (RetNone,
     {| _controller := Some (mkJoystick 0 true);
        _callbacks := _callbacks self;
        __clock := __clock self;
        __hz := __hz self;
        sticks_threshold := sticks_threshold self;
        DEBUG := DEBUG self |}).

(** [self._callbacks[key] = callback]: an item assignment on the dictionary
    object that attribute lookup finds. *)
Definition setCallback (self : t) (key : string) (callback : pyval) : Py unit :=
  setitem (callbacks_ref self) key callback.

(** [self._callbacks = callbacks]: binds the instance attribute to the
    caller's dictionary object. *)
Definition setCallbacks (self : t) (callbacks : loc) : t :=
  {| _controller := _controller self;
     _callbacks := Some callbacks;
     __clock := __clock self;
     __hz := __hz self;
     sticks_threshold := sticks_threshold self;
     DEBUG := DEBUG self |}.

(** The dictionary [setDebugCallbacks] builds: one printing lambda for each
    of the fifteen channels. *)
Definition debug_callbacks : dict :=
  list_to_map ((fun c => (c, PyFunc ("lambda:" +:+ c))) <$> channels).

Definition setDebugCallbacks (self : t) : Py t :=
  callbacks <- alloc debug_callbacks ;; ret (setCallbacks self callbacks).

Definition setHz (self : t) (hz : Z) : t :=
  {| _controller := _controller self;
     _callbacks := _callbacks self;
     __clock := __clock self;
     __hz := hz;
     sticks_threshold := sticks_threshold self;
     DEBUG := DEBUG self |}.

(** The assignment [controller.sticks_threshold = x]. *)
Definition set_sticks_threshold (self : t) (x : float) : t :=
  {| _controller := _controller self;
     _callbacks := _callbacks self;
     __clock := __clock self;
     __hz := __hz self;
     sticks_threshold := x;
     DEBUG := DEBUG self |}.

(** The assignment [controller.DEBUG = b]. *)
Definition set_DEBUG (self : t) (b : bool) : t :=
  {| _controller := _controller self;
     _callbacks := _callbacks self;
     __clock := __clock self;
     __hz := __hz self;
     sticks_threshold := sticks_threshold self;
     DEBUG := b |}.

(** *** Dispatch of one event *)

(** The first half of [__handleEvent], "DEBUG": print the event details. *)
Definition debug_print (self : t) (event : event) : Py unit :=
  if DEBUG self then
    print (OutEvent event) ;;
    print (OutText "[DEBUG] >>> ") ;;
    match event with
    | JOYBUTTONDOWN button | JOYBUTTONUP button =>
        name <- getitem_int BUTTONS button ;; print (OutText name)
    | JOYAXISMOTION axis _ =>
        name <- getitem_int AXIS axis ;; print (OutText name)
    | JOYHATMOTION value => print (OutHat "hat" value)
    | OTHEREVENT _ => ret tt
    end
  else ret tt.

(** [if self._callbacks[self.BUTTONS[event.button]]:
       self._callbacks[self.BUTTONS[event.button]](state)] *)
Definition button_dispatch (self : t) (button state : Z) : Py unit :=
  name <- getitem_int BUTTONS button ;;
  cb <- callbacks_getitem self name ;;
  if truthy cb then
    name' <- getitem_int BUTTONS button ;;
    cb' <- callbacks_getitem self name' ;;
    call cb' [AInt state]
  else ret tt.

(** [if self._callbacks[name]: self._callbacks[name](event.value)] *)
Definition value_dispatch (self : t) (name : string) (value : arg) : Py unit :=
  cb <- callbacks_getitem self name ;;
  if truthy cb then
    cb' <- callbacks_getitem self name ;; call cb' [value]
  else ret tt.

(** [abs(event.value) > self.sticks_threshold] *)
Definition beyond_threshold (self : t) (value : float) : bool :=
  (sticks_threshold self <? abs value)%float.

(** The second half of [__handleEvent], "PARSE EVENT": trigger the
    appropriate callback. *)
Definition parse_event (self : t) (event : event) : Py unit :=
  match event with
  | JOYBUTTONDOWN button => button_dispatch self button 0
  | JOYBUTTONUP button => button_dispatch self button 1
  | JOYAXISMOTION axis value =>
      if ((axis =? 0) || (axis =? 1)) && beyond_threshold self value then
        c0 <- and_then (axis =? 0) (callbacks_getitem self "left_stick") ;;
        if c0 then
          cb <- callbacks_getitem self "left_stick" ;;
          call cb [AInt 0; AFloat value]
        else
          c1 <- and_then (axis =? 1) (callbacks_getitem self "left_stick") ;;
          if c1 then
            cb <- callbacks_getitem self "left_stick" ;;
            call cb [AInt 1; AFloat (- value)%float]
          else ret tt
      else if ((axis =? 2) || (axis =? 3)) && beyond_threshold self value then
        c2 <- and_then (axis =? 2) (callbacks_getitem self "right_stick") ;;
        if c2 then
          cb <- callbacks_getitem self "right_stick" ;;
          call cb [AInt 0; AFloat value]
        else
          c3 <- and_then (axis =? 3) (callbacks_getitem self "right_stick") ;;
          if c3 then
            cb <- callbacks_getitem self "right_stick" ;;
            call cb [AInt 1; AFloat (- value)%float]
          else ret tt
      else if axis =? 4 then value_dispatch self "left_trigger" (AFloat value)
      else if axis =? 5 then value_dispatch self "right_trigger" (AFloat value)
      else ret tt
  | JOYHATMOTION (x, y) => value_dispatch self "hat" (ATuple x y)
  | OTHEREVENT _ => ret tt
  end.

(** [pygame.event.Event] in, callbacks out: the printout, then dispatch. *)
Definition __handleEvent (self : t) (event : event) : Py unit :=
  debug_print self event ;; parse_event self event.

(** The events fetched in one tick of [runListener], handled in order; an
    exception ends the loop. *)
Fixpoint handle_events (self : t) (events : list event) : Py unit :=
  match events with
  | [] => ret tt
  | event :: rest => __handleEvent self event ;; handle_events self rest
  end.

(** [runListener].  The loop [while (1)] has no exit of its own, so a run
    is given by the batches [pygame.event.get()] returns at successive
    ticks; this is the run over the first ticks, one batch each.
    [self.__clock.tick(self.__hz)] only waits (the constructor gives every
    instance its clock), and waiting is not modelled. *)
Fixpoint runListener (self : t) (ticks : list (list event)) : Py unit :=
  match ticks with
  | [] => ret tt
  | events :: later => handle_events self events ;; runListener self later
  end.

(** The script under [if __name__ == "__main__"], over the first ticks of
    its listener: the constructor, six registrations, the poll rate, the
    threshold, the loop. *)
Definition main (count : nat) (ticks : list (list event)) : Py unit :=
  match __init__ count with
  | inl e => raise e
  | inr controller =>
      setCallback controller "a" (PyFunc "a_button_callback") ;;
      setCallback controller "left_stick" (PyFunc "l_stick_callback") ;;
      setCallback controller "right_stick" (PyFunc "r_stick_callback") ;;
      setCallback controller "left_trigger" (PyFunc "l_trigger_callback") ;;
      setCallback controller "right_trigger" (PyFunc "r_trigger_callback") ;;
      setCallback controller "hat" (PyFunc "hat_callback") ;;
      runListener (set_sticks_threshold (setHz controller 60) 0.3) ticks
  end.

(** The channel whose callback an event is dispatched to, when it has one. *)
Definition channel_of (event : event) : option string :=
  match event with
  | JOYBUTTONDOWN button | JOYBUTTONUP button => BUTTONS !! button
  | JOYAXISMOTION axis _ =>
      if (axis =? 0) || (axis =? 1) then Some "left_stick"
      else if (axis =? 2) || (axis =? 3) then Some "right_stick"
      else if axis =? 4 then Some "left_trigger"
      else if axis =? 5 then Some "right_trigger"
      else None
  | JOYHATMOTION _ => Some "hat"
  | OTHEREVENT _ => None
  end.

End XBoxController.

Import XBoxController.

(** A freshly constructed controller, and the callbacks of the script at the
    end of the source file. *)
Definition controller : t :=
  {| _controller := Some (mkJoystick 0 true);
     _callbacks := None;
     __clock := Some mkClock;
     __hz := 20;
     sticks_threshold := 0.2%float;
     DEBUG := false |}.

Definition a_button_callback : pyval := PyFunc "a_button_callback".
Definition l_stick_callback : pyval := PyFunc "l_stick_callback".
Definition r_trigger_callback : pyval := PyFunc "r_trigger_callback".

(** When the debug printout finds a name for the event's index. *)
Definition indexed (ev : event) : Prop :=
  match ev with
  | JOYBUTTONDOWN button | JOYBUTTONUP button => is_Some (BUTTONS !! button)
  | JOYAXISMOTION axis _ => is_Some (AXIS !! axis)
  | JOYHATMOTION _ | OTHEREVENT _ => True
  end.

(** ** Sticks and triggers *)

(** Raw axes 0 and 1 belong to the left stick, 2 and 3 to the right one;
    raw axes 4 and 5 are the triggers. *)
Definition stick_of (axis : Z) : string :=
  if axis <? 2 then "left_stick" else "right_stick".

Definition trigger_of (axis : Z) : string :=
  if axis =? 4 then "left_trigger" else "right_trigger".

(** What a stick callback receives: the even raw axes are X (delivered as
    axis 0, value unchanged), the odd ones are Y (axis 1, value negated). *)
Definition stick_args (axis : Z) (value : float) : list arg :=
  [AInt (axis mod 2); AFloat (if Z.odd axis then (- value)%float else value)].

(** A stick sample that does not exceed the threshold (a NaN never does). *)
Definition in_dead_zone (self : t) (ev : event) : bool :=
  match ev with
  | JOYAXISMOTION axis value =>
      (0 <=? axis) && (axis <=? 3) && negb (beyond_threshold self value)
  | _ => false
  end.

(** The arguments a callback is invoked with. *)
Definition payload (ev : event) : list arg :=
  match ev with
  | JOYBUTTONDOWN _ => [AInt 0]
  | JOYBUTTONUP _ => [AInt 1]
  | JOYAXISMOTION axis value =>
      if axis <=? 3 then stick_args axis value else [AFloat value]
  | JOYHATMOTION (x, y) => [ATuple x y]
  | OTHEREVENT _ => []
  end.

(** ** Registries and events that dispatch accepts *)

(** A registry that binds each of the fifteen channels, to [None] or to a
    function: the shape of the class-level dictionary. *)
Definition complete (d : dict) : Prop :=
  forall c, c ∈ channels -> is_Some (d !! c).

(** An event whose index the tables of the class know, as far as the code
    looks it up: the button table always, the axis table only for the debug
    printout. *)
Definition accepted (self : t) (ev : event) : Prop :=
  match ev with
  | JOYBUTTONDOWN button | JOYBUTTONUP button => 0 <= button <= 9
  | JOYAXISMOTION axis _ => DEBUG self = false \/ 0 <= axis <= 5
  | JOYHATMOTION _ | OTHEREVENT _ => True
  end.

(** An event whose button or axis index is in the table of the class. *)
Definition in_tables (ev : event) : Prop :=
  match ev with
  | JOYBUTTONDOWN button | JOYBUTTONUP button => 0 <= button <= 9
  | JOYAXISMOTION axis _ => 0 <= axis <= 5
  | JOYHATMOTION _ | OTHEREVENT _ => True
  end.

(** ** Stores and controllers used as examples *)

(** The controller of the script when its listener starts, and the store
    its six registrations leave. *)
Definition script_controller : t :=
  set_sticks_threshold (setHz controller 60) 0.3.

Definition main_heap : heap := store (main 1 [] initial_heap).

(** The store after the registrations of the script at the end of the
    source file (three of them). *)
Definition script_heap : heap :=
  store ((setCallback controller "a" a_button_callback ;;
          setCallback controller "left_stick" l_stick_callback ;;
          setCallback controller "right_trigger" r_trigger_callback)
           initial_heap).

(** A caller's dictionary that leaves out channel ["a"], at a location of
    its own. *)
Definition partial_callbacks : dict :=
  {[ "b" := PyNone; "left_stick" := l_stick_callback ]}.

Definition partial_loc : loc := 1%nat.

Definition partial_heap : heap := <[partial_loc := partial_callbacks]> initial_heap.

(** A second controller, as another call of the constructor returns it. *)
Definition controller2 : t := setHz controller 60.

(** * Running the monad *)

Section Run.
Context {A B : Type}.
Implicit Types (m : Py A) (k : A -> Py B) (h : heap).

Lemma bind_value m k h t h' a :
  m h = Result t h' (inr a) ->
  bind m k h =
    Result (t ++ trace (k a h'))%list (store (k a h')) (outcome (k a h')).
Proof. intros Hm. unfold bind. rewrite Hm. reflexivity. Qed.

Lemma bind_raises m k h t h' e :
  m h = Result t h' (inl e) -> bind m k h = Result t h' (inl e).
Proof. intros Hm. unfold bind. rewrite Hm. reflexivity. Qed.
End Run.

Lemma result_eta {A} (r : result A) :
  r = Result (trace r) (store r) (outcome r).
Proof. destruct r; reflexivity. Qed.

Lemma invocations_app t1 t2 :
  invocations (t1 ++ t2) = (invocations t1 ++ invocations t2)%list.
Proof. unfold invocations. apply omap_app. Qed.

(** * Floating-point comparison

    [abs(v) <= x] excludes [abs(v) > x]; the converse fails for NaN. *)

Lemma SFcompare_antisym x y :
  SFcompare y x = option_map CompOpp (SFcompare x y).
Proof.
  destruct x as [sx|sx| |sx mx ex], y as [sy|sy| |sy my ey]; simpl;
    try reflexivity; try (destruct sx; try destruct sy; reflexivity).
  pose proof (Pos.compare_antisym mx my) as Hm. unfold Pos.compare in Hm.
  destruct sx, sy; simpl; try reflexivity; f_equal;
    rewrite (Z.compare_antisym ex ey), Hm;
    destruct (ex ?= ey)%Z; simpl; try reflexivity;
    destruct (Pos.compare_cont Eq mx my); reflexivity.
Qed.

Lemma leb_not_ltb (x y : float) :
  (x <=? y)%float = true -> (y <? x)%float = false.
Proof.
  rewrite leb_spec, ltb_spec. unfold SFleb, SFltb.
  rewrite (SFcompare_antisym (Prim2SF x) (Prim2SF y)).
  destruct (SFcompare (Prim2SF x) (Prim2SF y)) as [[]|]; simpl; congruence.
Qed.

Lemma within_threshold self value :
  (abs value <=? sticks_threshold self)%float = true ->
  beyond_threshold self value = false.
Proof. apply leb_not_ltb. Qed.

(** * The index tables *)

Lemma BUTTONS_Some button name :
  BUTTONS !! button = Some name ->
  0 <= button <= 9.
Proof.
  intros H. unfold BUTTONS in H.
  apply elem_of_list_to_map_2 in H.
  repeat (apply elem_of_cons in H as [H|H]; [injection H as -> _; lia|]).
  by apply elem_of_nil in H.
Qed.

Lemma BUTTONS_None button :
  ~ 0 <= button <= 9 -> BUTTONS !! button = None.
Proof.
  intros H. destruct (BUTTONS !! button) as [name|] eqn:E; [|done].
  apply BUTTONS_Some in E. contradiction.
Qed.

Lemma BUTTONS_range button :
  0 <= button <= 9 -> is_Some (BUTTONS !! button).
Proof.
  intros H.
  assert (button = 0 \/ button = 1 \/ button = 2 \/ button = 3 \/ button = 4 \/
          button = 5 \/ button = 6 \/ button = 7 \/ button = 8 \/ button = 9)
    as Hc by lia.
  repeat (destruct Hc as [->|Hc]); try subst button; vm_compute; eauto.
Qed.

Lemma AXIS_range axis :
  0 <= axis <= 5 -> is_Some (AXIS !! axis).
Proof.
  intros H.
  assert (axis = 0 \/ axis = 1 \/ axis = 2 \/ axis = 3 \/ axis = 4 \/ axis = 5)
    as Hc by lia.
  repeat (destruct Hc as [->|Hc]); try subst axis; vm_compute; eauto.
Qed.

(** Membership in a list that is written out. *)
Ltac in_list :=
  apply list_elem_of_In; simpl; repeat (first [left; reflexivity | right]).

(** Every name in [BUTTONS] is one of the fifteen channels. *)
Lemma BUTTONS_channels button name :
  BUTTONS !! button = Some name -> name ∈ channels.
Proof.
  intros H. unfold BUTTONS in H.
  apply elem_of_list_to_map_2 in H.
  repeat (apply elem_of_cons in H as [H|H];
          [injection H as _ ->; unfold channels; in_list|]).
  by apply elem_of_nil in H.
Qed.

(** * Registry lookups *)

Section Lookups.
Variables (self : t) (h : heap).

Lemma getitem_int_value {V} (d : gmap Z V) k v :
  d !! k = Some v -> getitem_int d k h = Result [] h (inr v).
Proof. intros E. unfold getitem_int. rewrite E. reflexivity. Qed.

Lemma getitem_int_raises {V} (d : gmap Z V) k :
  d !! k = None -> getitem_int d k h = Result [] h (inl (KeyError (KInt k))).
Proof. intros E. unfold getitem_int. rewrite E. reflexivity. Qed.

Lemma callbacks_getitem_value name v :
  registry self h !! name = Some v ->
  callbacks_getitem self name h = Result [] h (inr v).
Proof.
  intros E. unfold callbacks_getitem, bind, deref, getitem_str; simpl.
  unfold registry in E. rewrite E. reflexivity.
Qed.

Lemma callbacks_getitem_raises name :
  registry self h !! name = None ->
  callbacks_getitem self name h = Result [] h (inl (KeyError (KStr name))).
Proof.
  intros E. unfold callbacks_getitem, bind, deref, getitem_str; simpl.
  unfold registry in E. rewrite E. reflexivity.
Qed.

(** [c and self._callbacks[name]] with [c] true. *)
Lemma and_then_value name v :
  registry self h !! name = Some v ->
  and_then true (callbacks_getitem self name) h = Result [] h (inr (truthy v)).
Proof.
  intros E. unfold and_then.
  rewrite (bind_value _ _ _ _ _ _ (callbacks_getitem_value _ _ E)).
  reflexivity.
Qed.

Lemma and_then_raises name :
  registry self h !! name = None ->
  and_then true (callbacks_getitem self name) h =
    Result [] h (inl (KeyError (KStr name))).
Proof.
  intros E. unfold and_then.
  apply (bind_raises _ _ _ _ _ _ (callbacks_getitem_raises _ E)).
Qed.

(** ** Buttons *)

Lemma button_dispatch_func button state name f :
  BUTTONS !! button = Some name ->
  registry self h !! name = Some (PyFunc f) ->
  button_dispatch self button state h =
    Result [Invoke f [AInt state]] h (inr tt).
Proof.
  intros Eb Er. unfold button_dispatch.
  rewrite (bind_value _ _ _ _ _ _ (getitem_int_value _ _ _ Eb)).
  rewrite (bind_value _ _ _ _ _ _ (callbacks_getitem_value _ _ Er)).
  cbn [truthy].
  rewrite (bind_value _ _ _ _ _ _ (getitem_int_value _ _ _ Eb)).
  rewrite (bind_value _ _ _ _ _ _ (callbacks_getitem_value _ _ Er)).
  reflexivity.
Qed.

Lemma button_dispatch_unset button state name :
  BUTTONS !! button = Some name ->
  registry self h !! name = Some PyNone ->
  button_dispatch self button state h = Result [] h (inr tt).
Proof.
  intros Eb Er. unfold button_dispatch.
  rewrite (bind_value _ _ _ _ _ _ (getitem_int_value _ _ _ Eb)).
  rewrite (bind_value _ _ _ _ _ _ (callbacks_getitem_value _ _ Er)).
  reflexivity.
Qed.

Lemma button_dispatch_missing button state name :
  BUTTONS !! button = Some name ->
  registry self h !! name = None ->
  button_dispatch self button state h =
    Result [] h (inl (KeyError (KStr name))).
Proof.
  intros Eb Er. unfold button_dispatch.
  rewrite (bind_value _ _ _ _ _ _ (getitem_int_value _ _ _ Eb)).
  rewrite (bind_raises _ _ _ _ _ _ (callbacks_getitem_raises _ Er)).
  reflexivity.
Qed.

Lemma button_dispatch_unmapped button state :
  BUTTONS !! button = None ->
  button_dispatch self button state h =
    Result [] h (inl (KeyError (KInt button))).
Proof.
  intros Eb. unfold button_dispatch.
  apply (bind_raises _ _ _ _ _ _ (getitem_int_raises _ _ Eb)).
Qed.

(** ** Triggers and hat *)

Lemma value_dispatch_func name value f :
  registry self h !! name = Some (PyFunc f) ->
  value_dispatch self name value h = Result [Invoke f [value]] h (inr tt).
Proof.
  intros Er. unfold value_dispatch.
  rewrite (bind_value _ _ _ _ _ _ (callbacks_getitem_value _ _ Er)).
  cbn [truthy].
  rewrite (bind_value _ _ _ _ _ _ (callbacks_getitem_value _ _ Er)).
  reflexivity.
Qed.

Lemma value_dispatch_unset name value :
  registry self h !! name = Some PyNone ->
  value_dispatch self name value h = Result [] h (inr tt).
Proof.
  intros Er. unfold value_dispatch.
  rewrite (bind_value _ _ _ _ _ _ (callbacks_getitem_value _ _ Er)).
  reflexivity.
Qed.

Lemma value_dispatch_missing name value :
  registry self h !! name = None ->
  value_dispatch self name value h = Result [] h (inl (KeyError (KStr name))).
Proof.
  intros Er. unfold value_dispatch.
  apply (bind_raises _ _ _ _ _ _ (callbacks_getitem_raises _ Er)).
Qed.
End Lookups.

(** * The debug printout

    It prints, never invokes a callback and never touches the store; it
    raises only on a button or axis index that has no name. *)

Lemma print_name_run {V} (d : gmap Z V) (k : Z) (f : V -> output) h :
  (exists v, d !! k = Some v /\
     bind (getitem_int d k) (fun name => print (f name)) h =
       Result [Stdout (f v)] h (inr tt)) \/
  (d !! k = None /\
     bind (getitem_int d k) (fun name => print (f name)) h =
       Result [] h (inl (KeyError (KInt k)))).
Proof.
  destruct (d !! k) as [v|] eqn:E.
  - left. exists v. split; [done|].
    rewrite (bind_value _ _ _ _ _ _ (getitem_int_value h _ _ _ E)). reflexivity.
  - right. split; [done|].
    apply (bind_raises _ _ _ _ _ _ (getitem_int_raises h _ _ E)).
Qed.

Lemma debug_print_run self ev h :
  exists tr o,
    debug_print self ev h = Result tr h o /\ invocations tr = [] /\
    (indexed ev -> o = inr tt).
Proof.
  unfold debug_print. destruct (DEBUG self).
  2: { exists [], (inr tt). by repeat split. }
  unfold bind at 1 2. cbn [print emit trace store outcome app].
  destruct ev as [b|b|a v|v|ty]; cbn [indexed].
  - destruct (print_name_run BUTTONS b OutText h) as [(n & E & ->)|[E ->]];
      eexists _, _; (split; [reflexivity|]); split; try done.
    intros [? ?]; congruence.
  - destruct (print_name_run BUTTONS b OutText h) as [(n & E & ->)|[E ->]];
      eexists _, _; (split; [reflexivity|]); split; try done.
    intros [? ?]; congruence.
  - destruct (print_name_run AXIS a OutText h) as [(n & E & ->)|[E ->]];
      eexists _, _; (split; [reflexivity|]); split; try done.
    intros [? ?]; congruence.
  - eexists _, _. by repeat split.
  - eexists _, _. by repeat split.
Qed.

(** On a button index that has no name the printout raises, when it is on. *)
Lemma debug_print_unmapped self h ev button :
  ev = JOYBUTTONDOWN button \/ ev = JOYBUTTONUP button ->
  BUTTONS !! button = None ->
  exists tr,
    debug_print self ev h =
      Result tr h (if DEBUG self then inl (KeyError (KInt button)) else inr tt) /\
    invocations tr = [].
Proof.
  intros Hev Hb. unfold debug_print. destruct (DEBUG self).
  2: { exists []. by split. }
  unfold bind at 1 2. cbn [print emit trace store outcome app].
  destruct Hev as [-> | ->];
    (destruct (print_name_run BUTTONS button OutText h)
       as [(n & E & _)|[_ ->]]; [congruence|]);
    eexists; (split; [reflexivity|done]).
Qed.

(** Dispatch after the printout: the invocations, the store and the outcome
    of [__handleEvent] are those of [parse_event] whenever the printout does
    not raise. *)
Lemma handleEvent_indexed self ev h tr h' o :
  indexed ev ->
  parse_event self ev h = Result tr h' o ->
  invocations (trace (__handleEvent self ev h)) = invocations tr /\
  store (__handleEvent self ev h) = h' /\
  outcome (__handleEvent self ev h) = o.
Proof.
  intros Hi Hp.
  destruct (debug_print_run self ev h) as (td & od & Hd & Hno & Hok).
  rewrite (Hok Hi) in Hd.
  unfold __handleEvent. rewrite (bind_value _ _ _ _ _ _ Hd), Hp.
  cbn [trace store outcome]. rewrite invocations_app, Hno. done.
Qed.

(** With no assumption on the index: the printout may raise first, and
    then nothing is invoked. *)
Lemma handleEvent_invocations self ev h :
  invocations (trace (__handleEvent self ev h)) = [] \/
  invocations (trace (__handleEvent self ev h)) =
    invocations (trace (parse_event self ev h)).
Proof.
  destruct (debug_print_run self ev h) as (td & od & Hd & Hno & _).
  unfold __handleEvent. destruct od as [e|[]].
  - left. rewrite (bind_raises _ _ _ _ _ _ Hd). exact Hno.
  - right. rewrite (bind_value _ _ _ _ _ _ Hd).
    cbn [trace]. rewrite invocations_app, Hno. done.
Qed.

(** * Sticks and triggers *)

Ltac stick_cases axis H :=
  let Hc := fresh "Hc" in
  assert (axis = 0 \/ axis = 1 \/ axis = 2 \/ axis = 3) as Hc by lia;
  clear H;
  destruct Hc as [-> | [-> | [-> | ->]]].

Ltac lookups :=
  repeat match goal with
    | E : registry ?s ?h !! ?n = Some ?v
      |- context [bind (and_then true (callbacks_getitem ?s ?n)) _ ?h] =>
        rewrite (bind_value _ _ _ _ _ _ (and_then_value s h n v E));
        cbn [truthy]
    | E : registry ?s ?h !! ?n = None
      |- context [bind (and_then true (callbacks_getitem ?s ?n)) _ ?h] =>
        rewrite (bind_raises _ _ _ _ _ _ (and_then_raises s h n E))
    | E : registry ?s ?h !! ?n = Some ?v
      |- context [bind (callbacks_getitem ?s ?n) _ ?h] =>
        rewrite (bind_value _ _ _ _ _ _ (callbacks_getitem_value s h n v E))
    | |- context [bind (and_then false ?e) _ ?h] =>
        change (and_then false e) with (@ret bool false); unfold bind at 1;
        cbn [ret trace store outcome app]
    end.

Section Axes.
Variables (self : t) (h : heap).

Lemma parse_stick_beyond axis value f :
  0 <= axis <= 3 ->
  registry self h !! stick_of axis = Some (PyFunc f) ->
  beyond_threshold self value = true ->
  parse_event self (JOYAXISMOTION axis value) h =
    Result [Invoke f (stick_args axis value)] h (inr tt).
Proof.
  intros Ha Er Hb. stick_cases axis Ha; cbn [stick_of Z.ltb Z.compare
    Pos.compare Pos.compare_cont] in Er; unfold parse_event; rewrite Hb;
    cbn [Z.eqb Pos.eqb orb andb]; lookups; reflexivity.
Qed.

Lemma parse_stick_unset axis value :
  0 <= axis <= 3 ->
  registry self h !! stick_of axis = Some PyNone ->
  beyond_threshold self value = true ->
  parse_event self (JOYAXISMOTION axis value) h = Result [] h (inr tt).
Proof.
  intros Ha Er Hb. stick_cases axis Ha; cbn [stick_of Z.ltb Z.compare
    Pos.compare Pos.compare_cont] in Er; unfold parse_event; rewrite Hb;
    cbn [Z.eqb Pos.eqb orb andb]; lookups; reflexivity.
Qed.

Lemma parse_stick_missing axis value :
  0 <= axis <= 3 ->
  registry self h !! stick_of axis = None ->
  beyond_threshold self value = true ->
  parse_event self (JOYAXISMOTION axis value) h =
    Result [] h (inl (KeyError (KStr (stick_of axis)))).
Proof.
  intros Ha Er Hb. stick_cases axis Ha; cbn [stick_of Z.ltb Z.compare
    Pos.compare Pos.compare_cont] in Er |- *; unfold parse_event; rewrite Hb;
    cbn [Z.eqb Pos.eqb orb andb]; lookups; reflexivity.
Qed.

(** Within the dead zone the registry is not even consulted. *)
Lemma parse_stick_within axis value :
  0 <= axis <= 3 ->
  beyond_threshold self value = false ->
  parse_event self (JOYAXISMOTION axis value) h = Result [] h (inr tt).
Proof.
  intros Ha Hb. stick_cases axis Ha; unfold parse_event; rewrite Hb;
    reflexivity.
Qed.

(** The triggers: [beyond_threshold] guards only axes 0 to 3. *)
Lemma parse_trigger axis value :
  axis = 4 \/ axis = 5 ->
  parse_event self (JOYAXISMOTION axis value) h =
    value_dispatch self (trigger_of axis) (AFloat value) h.
Proof. intros [Ha|Ha]; subst axis; reflexivity. Qed.

(** Any other axis index is ignored. *)
Lemma parse_axis_other axis value :
  ~ 0 <= axis <= 5 ->
  parse_event self (JOYAXISMOTION axis value) h = Result [] h (inr tt).
Proof.
  intros Ha. unfold parse_event.
  destruct (Z.eqb_spec axis 0); [lia|]. destruct (Z.eqb_spec axis 1); [lia|].
  destruct (Z.eqb_spec axis 2); [lia|]. destruct (Z.eqb_spec axis 3); [lia|].
  destruct (Z.eqb_spec axis 4); [lia|]. destruct (Z.eqb_spec axis 5); [lia|].
  reflexivity.
Qed.
End Axes.

(** * Dispatch by channel *)

Lemma channel_of_axis axis value c :
  channel_of (JOYAXISMOTION axis value) = Some c ->
  (0 <= axis <= 3 /\ c = stick_of axis) \/
  ((axis = 4 \/ axis = 5) /\ c = trigger_of axis).
Proof.
  unfold channel_of.
  destruct (Z.eqb_spec axis 0) as [->|?]; [intros [= <-]; left; by split|].
  destruct (Z.eqb_spec axis 1) as [->|?]; [intros [= <-]; left; by split|].
  destruct (Z.eqb_spec axis 2) as [->|?]; [intros [= <-]; left; by split|].
  destruct (Z.eqb_spec axis 3) as [->|?]; [intros [= <-]; left; by split|].
  destruct (Z.eqb_spec axis 4) as [->|?]; [intros [= <-]; right; split; auto|].
  destruct (Z.eqb_spec axis 5) as [->|?]; [intros [= <-]; right; split; auto|].
  discriminate.
Qed.

Lemma channel_of_indexed ev c : channel_of ev = Some c -> indexed ev.
Proof.
  destruct ev as [b|b|a v|v|ty]; cbn [channel_of indexed]; eauto.
  intros H. apply AXIS_range.
  destruct (channel_of_axis a v c H) as [[? _]|[? _]]; lia.
Qed.

Section Channels.
Variables (self : t) (h : heap).

Lemma parse_event_func ev c f :
  channel_of ev = Some c ->
  registry self h !! c = Some (PyFunc f) ->
  in_dead_zone self ev = false ->
  parse_event self ev h = Result [Invoke f (payload ev)] h (inr tt).
Proof.
  intros Hc Er Hz. destruct ev as [b|b|a v|[x y]|ty]; cbn [channel_of] in Hc.
  - by apply button_dispatch_func with c.
  - by apply button_dispatch_func with c.
  - destruct (channel_of_axis a v c Hc) as [[Ha ->]|[Ha ->]].
    + cbn [in_dead_zone] in Hz.
      replace (0 <=? a) with true in Hz by lia.
      replace (a <=? 3) with true in Hz by lia.
      cbn [andb] in Hz. apply negb_false_iff in Hz.
      cbn [payload]. replace (a <=? 3) with true by lia.
      by apply parse_stick_beyond.
    + rewrite parse_trigger by done.
      cbn [payload]. replace (a <=? 3) with false by lia.
      by apply value_dispatch_func.
  - injection Hc as <-. by apply value_dispatch_func.
  - discriminate.
Qed.

Lemma parse_event_unset ev c :
  channel_of ev = Some c ->
  registry self h !! c = Some PyNone ->
  parse_event self ev h = Result [] h (inr tt).
Proof.
  intros Hc Er. destruct ev as [b|b|a v|[x y]|ty]; cbn [channel_of] in Hc.
  - by apply button_dispatch_unset with c.
  - by apply button_dispatch_unset with c.
  - destruct (channel_of_axis a v c Hc) as [[Ha ->]|[Ha ->]].
    + destruct (beyond_threshold self v) eqn:Hb.
      * by apply parse_stick_unset.
      * by apply parse_stick_within.
    + rewrite parse_trigger by done. by apply value_dispatch_unset.
  - injection Hc as <-. by apply value_dispatch_unset.
  - discriminate.
Qed.

Lemma parse_event_missing ev c :
  channel_of ev = Some c ->
  registry self h !! c = None ->
  parse_event self ev h =
    Result [] h (if in_dead_zone self ev then inr tt
                 else inl (KeyError (KStr c))).
Proof.
  intros Hc Er. destruct ev as [b|b|a v|[x y]|ty]; cbn [channel_of] in Hc.
  - by apply button_dispatch_missing.
  - by apply button_dispatch_missing.
  - destruct (channel_of_axis a v c Hc) as [[Ha ->]|[Ha ->]];
      cbn [in_dead_zone].
    + replace (0 <=? a) with true by lia. replace (a <=? 3) with true by lia.
      cbn [andb]. destruct (beyond_threshold self v) eqn:Hb; cbn [negb].
      * by apply parse_stick_missing.
      * by apply parse_stick_within.
    + replace (a <=? 3) with false by lia. rewrite andb_false_r.
      rewrite parse_trigger by done. by apply value_dispatch_missing.
  - injection Hc as <-. by apply value_dispatch_missing.
  - discriminate.
Qed.
End Channels.

(** * Registration *)

Section Registration.
Variables (self : t) (h : heap).

Lemma setCallback_run key callback :
  setCallback self key callback h =
    Result [] (<[callbacks_ref self := <[key := callback]> (registry self h)]> h)
           (inr tt).
Proof. reflexivity. Qed.

(** An instance that resolves [_callbacks] to the same object sees the
    assignment ... *)
Lemma registry_setCallback other key callback :
  callbacks_ref other = callbacks_ref self ->
  registry other (store (setCallback self key callback h)) =
    <[key := callback]> (registry other h).
Proof.
  intros E. rewrite setCallback_run. cbn [store]. unfold registry.
  rewrite E. apply lookup_total_insert_eq.
Qed.

(** ... and one that resolves it to another object does not. *)
Lemma registry_setCallback_apart other key callback :
  callbacks_ref other <> callbacks_ref self ->
  registry other (store (setCallback self key callback h)) = registry other h.
Proof.
  intros E. rewrite setCallback_run. cbn [store]. unfold registry.
  by apply lookup_total_insert_ne.
Qed.

Lemma registry_setCallbacks callbacks :
  registry (setCallbacks self callbacks) h = h !!! callbacks.
Proof. reflexivity. Qed.
End Registration.

(** ** The debug callbacks

    The one caller of [setCallbacks] in the source passes a dictionary that
    binds all fifteen channels, and with it dispatch raises nothing. *)

Lemma debug_callbacks_func c :
  c ∈ channels -> debug_callbacks !! c = Some (PyFunc ("lambda:" +:+ c)).
Proof.
  unfold channels. intros H.
  repeat (apply elem_of_cons in H as [->|H]; [vm_compute; reflexivity|]).
  by apply elem_of_nil in H.
Qed.

Lemma channel_of_channels ev c : channel_of ev = Some c -> c ∈ channels.
Proof.
  destruct ev as [b|b|a v|v|ty]; cbn [channel_of].
  - apply BUTTONS_channels.
  - apply BUTTONS_channels.
  - intros H. destruct (channel_of_axis a v c H) as [[Ha ->]|[Ha ->]].
    + unfold stick_of, channels. destruct (a <? 2); in_list.
    + unfold trigger_of, channels. destruct (a =? 4); in_list.
  - intros [= <-]. unfold channels. in_list.
  - discriminate.
Qed.

Lemma setDebugCallbacks_run self h :
  setDebugCallbacks self h =
    Result [] (<[fresh (dom h) := debug_callbacks]> h)
           (inr (setCallbacks self (fresh (dom h)))).
Proof. reflexivity. Qed.

Lemma setDebugCallbacks_total self h ev c :
  channel_of ev = Some c ->
  outcome (__handleEvent (setCallbacks self (fresh (dom h))) ev
             (store (setDebugCallbacks self h))) = inr tt.
Proof.
  intros Hc. rewrite setDebugCallbacks_run. cbn [store].
  set (self' := setCallbacks self (fresh (dom h))).
  set (h' := <[fresh (dom h) := debug_callbacks]> h).
  assert (registry self' h' !! c = Some (PyFunc ("lambda:" +:+ c))) as Er.
  { unfold registry, self', h'. cbn [callbacks_ref setCallbacks _callbacks default].
    rewrite lookup_total_insert_eq.
    apply debug_callbacks_func, (channel_of_channels ev), Hc. }
  pose proof (channel_of_indexed ev c Hc) as Hi.
  destruct (in_dead_zone self' ev) eqn:Hz.
  - destruct ev as [b|b|a v|v|ty]; try discriminate Hz.
    cbn [in_dead_zone] in Hz. apply andb_prop in Hz as [Ha Hb].
    apply andb_prop in Ha as [Ha0 Ha3]. apply negb_true_iff in Hb.
    destruct (handleEvent_indexed self' _ h' _ _ _ Hi
                (parse_stick_within self' h' a v ltac:(lia) Hb))
      as (_ & _ & ->).
    done.
  - destruct (handleEvent_indexed self' ev h' _ _ _ Hi
                (parse_event_func self' h' ev c _ Hc Er Hz))
      as (_ & _ & ->).
    done.
Qed.

(** * Scenarios of the specification, evaluated *)

Example scenario_register_a :
  trace (__handleEvent controller (JOYBUTTONDOWN 0) script_heap) =
    [Invoke "a_button_callback" [AInt 0]].
Proof. vm_compute. reflexivity. Qed.

Example scenario_stick_y :
  trace (__handleEvent controller (JOYAXISMOTION 1 0.5) script_heap) =
    [Invoke "l_stick_callback" [AInt 1; AFloat (-0.5)]].
Proof. vm_compute. reflexivity. Qed.

Example scenario_dead_zone :
  trace (__handleEvent controller (JOYAXISMOTION 0 0.1) script_heap) = [].
Proof. vm_compute. reflexivity. Qed.

Example scenario_debug :
  trace (__handleEvent (mk None None None 20 0.2 true) (JOYBUTTONUP 0) script_heap) =
    [Stdout (OutEvent (JOYBUTTONUP 0)); Stdout (OutText "[DEBUG] >>> ");
     Stdout (OutText "a"); Invoke "a_button_callback" [AInt 1]].
Proof. vm_compute. reflexivity. Qed.

(** An exception ends the loop over the events of a tick: the second event
    is never handled. *)
Example tick_stops_at_exception :
  let r := handle_events controller [JOYBUTTONDOWN 12; JOYBUTTONDOWN 0]
             script_heap in
  trace r = [] /\ outcome r = inl (KeyError (KInt 12)).
Proof. vm_compute. split; reflexivity. Qed.

(** * Claims about registration *)

(** C1, counterexample.  [setCallback("bogus", a_button_callback)] on a
    fresh controller raises nothing and changes the registry: the name, which
    is none of the fifteen channels and was absent before, is bound
    afterwards. *)
Lemma setCallback_bogus_accepted :
  ("bogus" ∉ channels) /\
  outcome (setCallback controller "bogus" a_button_callback initial_heap) = inr tt /\
  registry controller initial_heap !! "bogus" = None /\
  registry controller
    (store (setCallback controller "bogus" a_button_callback initial_heap))
    !! "bogus" = Some a_button_callback.
Proof.
  split.
  - unfold channels. intros H.
    repeat (apply elem_of_cons in H as [H|H]; [discriminate|]).
    by apply elem_of_nil in H.
  - vm_compute. repeat split; reflexivity.
Qed.

(** C1, as amended.  For every name, whether or not it is one of the fifteen
    channels, [setCallback] raises nothing and performs no other effect; the
    registry afterwards is the registry before with that name bound to the
    callback (so every other entry is as it was, and an unknown name is
    added), and no other dictionary object changes. *)
Theorem setCallback_sets_entry (self : t) (key : string) (callback : pyval)
    (h : heap) :
  outcome (setCallback self key callback h) = inr tt /\
  trace (setCallback self key callback h) = [] /\
  registry self (store (setCallback self key callback h)) =
    <[key := callback]> (registry self h) /\
  registry self (store (setCallback self key callback h)) !! key =
    Some callback /\
  (forall key', key' <> key ->
     registry self (store (setCallback self key callback h)) !! key' =
       registry self h !! key') /\
  (forall l, l <> callbacks_ref self ->
     store (setCallback self key callback h) !! l = h !! l).
Proof.
  rewrite (registry_setCallback self h self key callback eq_refl).
  rewrite setCallback_run. cbn [outcome trace store].
  repeat split.
  - apply lookup_insert_eq.
  - intros key' Hne. by apply lookup_insert_ne.
  - intros l Hne. by apply lookup_insert_ne.
Qed.

(** C2, counterexample.  The caller's dictionary leaves out ["a"]; after
    [setCallbacks] a press of button 0, which is routed to ["a"], is not
    ignored: the registry lookup raises [KeyError]. *)
Lemma setCallbacks_partial_raises :
  partial_callbacks !! "a" = None /\
  channel_of (JOYBUTTONDOWN 0) = Some "a" /\
  outcome (__handleEvent (setCallbacks controller partial_loc)
             (JOYBUTTONDOWN 0) partial_heap) = inl (KeyError (KStr "a")).
Proof. vm_compute. repeat split; reflexivity. Qed.

(** C2, as amended.  After [setCallbacks] the registry is the caller's
    dictionary itself, so every channel in it keeps the callback it is given
    there.  An event routed to a channel that the dictionary binds to [None]
    invokes nothing and raises nothing.  An event routed to a channel the
    dictionary leaves out invokes nothing either, and raises
    [KeyError] for that channel, unless it is a stick sample within the dead
    zone, which is ignored before the registry is consulted. *)
Theorem setCallbacks_replaces_registry (self : t) (callbacks : loc) (h : heap)
    (ev : event) (c : string) :
  channel_of ev = Some c ->
  registry (setCallbacks self callbacks) h = h !!! callbacks /\
  ((h !!! callbacks) !! c = Some PyNone ->
     invocations (trace (__handleEvent (setCallbacks self callbacks) ev h)) = [] /\
     outcome (__handleEvent (setCallbacks self callbacks) ev h) = inr tt) /\
  ((h !!! callbacks) !! c = None ->
     invocations (trace (__handleEvent (setCallbacks self callbacks) ev h)) = [] /\
     outcome (__handleEvent (setCallbacks self callbacks) ev h) =
       if in_dead_zone (setCallbacks self callbacks) ev then inr tt
       else inl (KeyError (KStr c))).
Proof.
  intros Hc. split; [reflexivity|].
  pose proof (channel_of_indexed ev c Hc) as Hi. split; intros E.
  - destruct (handleEvent_indexed _ ev h _ _ _ Hi
                (parse_event_unset (setCallbacks self callbacks) h ev c Hc E))
      as (-> & _ & ->).
    done.
  - destruct (handleEvent_indexed _ ev h _ _ _ Hi
                (parse_event_missing (setCallbacks self callbacks) h ev c Hc E))
      as (-> & _ & ->).
    done.
Qed.

Lemma setCallbacks_replaces_registry_witness :
  registry (setCallbacks controller partial_loc) partial_heap = partial_callbacks /\
  outcome (__handleEvent (setCallbacks controller partial_loc)
             (JOYBUTTONDOWN 1) partial_heap) = inr tt /\
  outcome (__handleEvent (setCallbacks controller partial_loc)
             (JOYAXISMOTION 2 0.1) partial_heap) = inr tt /\
  outcome (__handleEvent (setCallbacks controller partial_loc)
             (JOYAXISMOTION 2 0.5) partial_heap) =
    inl (KeyError (KStr "right_stick")).
Proof.
  split; [|split; [|split]].
  - apply (proj1 (setCallbacks_replaces_registry controller partial_loc
                    partial_heap (JOYBUTTONDOWN 1) "b"
                    ltac:(vm_compute; reflexivity))).
  - apply (proj1 (proj2 (setCallbacks_replaces_registry controller partial_loc
                           partial_heap (JOYBUTTONDOWN 1) "b"
                           ltac:(vm_compute; reflexivity)))).
    vm_compute; reflexivity.
  - apply (proj2 (proj2 (setCallbacks_replaces_registry controller partial_loc
                           partial_heap (JOYAXISMOTION 2 0.1) "right_stick"
                           ltac:(vm_compute; reflexivity)))).
    vm_compute; reflexivity.
  - apply (proj2 (proj2 (setCallbacks_replaces_registry controller partial_loc
                           partial_heap (JOYAXISMOTION 2 0.5) "right_stick"
                           ltac:(vm_compute; reflexivity)))).
    vm_compute; reflexivity.
Defined.

(** * Claims about dispatch *)

(** C3.  An axis-motion event on raw axis 0, 1, 2 or 3, with a function
    registered for the stick of that axis.  If [abs(value)] exceeds the
    threshold, the function is invoked exactly once, with the axis (0 for
    the X axes 0 and 2, 1 for the Y axes 1 and 3) and the value (unchanged
    for X, negated for Y), and nothing is raised.  If [abs(value)] is at
    most the threshold, nothing is invoked. *)
Theorem stick_dispatch (self : t) (h : heap) (axis : Z) (value : float)
    (f : callable) :
  0 <= axis <= 3 ->
  registry self h !! stick_of axis = Some (PyFunc f) ->
  ((sticks_threshold self <? abs value)%float = true ->
     invocations (trace (__handleEvent self (JOYAXISMOTION axis value) h)) =
       [(f, [AInt (axis mod 2);
             AFloat (if Z.odd axis then (- value)%float else value)])] /\
     outcome (__handleEvent self (JOYAXISMOTION axis value) h) = inr tt) /\
  ((abs value <=? sticks_threshold self)%float = true ->
     invocations (trace (__handleEvent self (JOYAXISMOTION axis value) h)) = [] /\
     outcome (__handleEvent self (JOYAXISMOTION axis value) h) = inr tt).
Proof.
  intros Ha Er.
  assert (indexed (JOYAXISMOTION axis value)) as Hi
    by (apply AXIS_range; lia).
  split; intros Hv.
  - destruct (handleEvent_indexed self _ h _ _ _ Hi
                (parse_stick_beyond self h axis value f Ha Er Hv))
      as (-> & _ & ->).
    done.
  - apply within_threshold in Hv.
    destruct (handleEvent_indexed self _ h _ _ _ Hi
                (parse_stick_within self h axis value Ha Hv))
      as (-> & _ & ->).
    done.
Qed.

Lemma stick_dispatch_witness :
  invocations (trace (__handleEvent controller (JOYAXISMOTION 1 0.5) script_heap)) =
    [("l_stick_callback", [AInt 1; AFloat (-0.5)])] /\
  invocations (trace (__handleEvent controller (JOYAXISMOTION 0 0.1) script_heap)) =
    [].
Proof.
  split.
  - apply (proj1 (stick_dispatch controller script_heap 1 0.5 "l_stick_callback"
                    ltac:(lia) ltac:(vm_compute; reflexivity))).
    vm_compute; reflexivity.
  - apply (proj2 (stick_dispatch controller script_heap 0 0.1 "l_stick_callback"
                    ltac:(lia) ltac:(vm_compute; reflexivity))).
    vm_compute; reflexivity.
Defined.

(** C4.  A button event with index 0 to 9 whose channel has a function
    registered: button-down invokes it exactly once with 0, button-up
    exactly once with 1, and nothing else is invoked, so the reverse
    encoding does not occur. *)
Theorem button_state_encoding (self : t) (h : heap) (button : Z)
    (name : string) (f : callable) :
  0 <= button <= 9 ->
  BUTTONS !! button = Some name ->
  registry self h !! name = Some (PyFunc f) ->
  invocations (trace (__handleEvent self (JOYBUTTONDOWN button) h)) =
    [(f, [AInt 0])] /\
  outcome (__handleEvent self (JOYBUTTONDOWN button) h) = inr tt /\
  invocations (trace (__handleEvent self (JOYBUTTONUP button) h)) =
    [(f, [AInt 1])] /\
  outcome (__handleEvent self (JOYBUTTONUP button) h) = inr tt.
Proof.
  intros _ Eb Er.
  assert (indexed (JOYBUTTONDOWN button)) as Hd by (cbn; eauto).
  assert (indexed (JOYBUTTONUP button)) as Hu by (cbn; eauto).
  destruct (handleEvent_indexed self _ h _ _ _ Hd
              (button_dispatch_func self h button 0 name f Eb Er))
    as (-> & _ & ->).
  destruct (handleEvent_indexed self _ h _ _ _ Hu
              (button_dispatch_func self h button 1 name f Eb Er))
    as (-> & _ & ->).
  done.
Qed.

Lemma button_state_encoding_witness :
  invocations (trace (__handleEvent controller (JOYBUTTONDOWN 0) script_heap)) =
    [("a_button_callback", [AInt 0])] /\
  outcome (__handleEvent controller (JOYBUTTONDOWN 0) script_heap) = inr tt /\
  invocations (trace (__handleEvent controller (JOYBUTTONUP 0) script_heap)) =
    [("a_button_callback", [AInt 1])] /\
  outcome (__handleEvent controller (JOYBUTTONUP 0) script_heap) = inr tt.
Proof.
  apply (button_state_encoding controller script_heap 0 "a" "a_button_callback").
  - lia.
  - vm_compute; reflexivity.
  - vm_compute; reflexivity.
Defined.

(** C5.  An axis-motion event on raw axis 4 or 5 whose trigger channel has
    a function registered invokes it exactly once with the raw value, for
    every value and every threshold. *)
Theorem trigger_dispatch (self : t) (h : heap) (axis : Z) (value : float)
    (f : callable) :
  axis = 4 \/ axis = 5 ->
  registry self h !! trigger_of axis = Some (PyFunc f) ->
  invocations (trace (__handleEvent self (JOYAXISMOTION axis value) h)) =
    [(f, [AFloat value])] /\
  outcome (__handleEvent self (JOYAXISMOTION axis value) h) = inr tt.
Proof.
  intros Ha Er.
  assert (indexed (JOYAXISMOTION axis value)) as Hi
    by (apply AXIS_range; lia).
  pose proof (value_dispatch_func self h _ (AFloat value) f Er) as Hp.
  rewrite <- (parse_trigger self h axis value Ha) in Hp.
  destruct (handleEvent_indexed self _ h _ _ _ Hi Hp) as (-> & _ & ->).
  done.
Qed.

Lemma trigger_dispatch_witness :
  invocations (trace (__handleEvent controller (JOYAXISMOTION 5 0) script_heap)) =
    [("r_trigger_callback", [AFloat 0])] /\
  invocations (trace (__handleEvent controller (JOYAXISMOTION 5 (-0.1)) script_heap)) =
    [("r_trigger_callback", [AFloat (-0.1)])].
Proof.
  split.
  - apply (proj1 (trigger_dispatch controller script_heap 5 0 "r_trigger_callback"
                    ltac:(right; reflexivity) ltac:(vm_compute; reflexivity))).
  - apply (proj1 (trigger_dispatch controller script_heap 5 (-0.1)
                    "r_trigger_callback"
                    ltac:(right; reflexivity) ltac:(vm_compute; reflexivity))).
Defined.

(** * The threshold decides only whether a sample is delivered *)

(** What [parse_event] invokes for an axis sample does not depend on the
    threshold once the sample is beyond it. *)
Lemma parse_axis_threshold (self : t) (h : heap) (axis : Z) (value : float)
    (x1 x2 : float) :
  beyond_threshold (set_sticks_threshold self x1) value =
    beyond_threshold (set_sticks_threshold self x2) value \/
  ~ 0 <= axis <= 3 ->
  parse_event (set_sticks_threshold self x1) (JOYAXISMOTION axis value) h =
    parse_event (set_sticks_threshold self x2) (JOYAXISMOTION axis value) h.
Proof.
  intros [E|Ha].
  - unfold parse_event. rewrite E. reflexivity.
  - unfold parse_event.
    destruct (Z.eqb_spec axis 0); [lia|]. destruct (Z.eqb_spec axis 1); [lia|].
    destruct (Z.eqb_spec axis 2); [lia|]. destruct (Z.eqb_spec axis 3); [lia|].
    reflexivity.
Qed.

(** C7.  Two runs of dispatch on the same axis-motion event and the same
    store, by controllers that differ only in [sticks_threshold]: either
    both perform the same invocations, with the same arguments, or one of
    them performs none. *)
Theorem threshold_keeps_payload (self : t) (h : heap) (axis : Z)
    (value x1 x2 : float) :
  invocations (trace (__handleEvent (set_sticks_threshold self x1)
                        (JOYAXISMOTION axis value) h)) =
    invocations (trace (__handleEvent (set_sticks_threshold self x2)
                          (JOYAXISMOTION axis value) h)) \/
  invocations (trace (__handleEvent (set_sticks_threshold self x1)
                        (JOYAXISMOTION axis value) h)) = [] \/
  invocations (trace (__handleEvent (set_sticks_threshold self x2)
                        (JOYAXISMOTION axis value) h)) = [].
Proof.
  destruct (handleEvent_invocations (set_sticks_threshold self x1)
              (JOYAXISMOTION axis value) h) as [E1|E1]; [by right; left|].
  destruct (handleEvent_invocations (set_sticks_threshold self x2)
              (JOYAXISMOTION axis value) h) as [E2|E2]; [by right; right|].
  rewrite E1, E2.
  destruct (decide (0 <= axis <= 3)) as [Ha|Ha].
  - destruct (beyond_threshold (set_sticks_threshold self x1) value) eqn:B1,
             (beyond_threshold (set_sticks_threshold self x2) value) eqn:B2.
    + left. rewrite (parse_axis_threshold self h axis value x1 x2); [done|].
      left. congruence.
    + right; right. by rewrite parse_stick_within.
    + right; left. by rewrite parse_stick_within.
    + left. by rewrite !parse_stick_within.
  - left. rewrite (parse_axis_threshold self h axis value x1 x2); [done|].
    by right.
Qed.

(** * The class-level registry *)

(** C9.  Two instances on which [setCallbacks] was never called have no
    [_callbacks] attribute of their own, so both resolve it to the one
    dictionary of the class: after [setCallback] through [a] the registry
    [b] sees is updated, and dispatch on [b] of any event routed to that
    channel (outside the dead zone) invokes the function [a] registered. *)
Theorem class_registry_shared (a b : t) (h : heap) (key : string)
    (f : callable) (ev : event) :
  _callbacks a = None ->
  _callbacks b = None ->
  channel_of ev = Some key ->
  in_dead_zone b ev = false ->
  registry b (store (setCallback a key (PyFunc f) h)) =
    <[key := PyFunc f]> (registry b h) /\
  invocations (trace (__handleEvent b ev
                        (store (setCallback a key (PyFunc f) h)))) =
    [(f, payload ev)].
Proof.
  intros Ea Eb Hc Hz.
  assert (callbacks_ref b = callbacks_ref a) as E
    by (unfold callbacks_ref; by rewrite Ea, Eb).
  pose proof (registry_setCallback a h b key (PyFunc f) E) as Hr.
  split; [exact Hr|].
  assert (registry b (store (setCallback a key (PyFunc f) h)) !! key =
            Some (PyFunc f)) as Er
    by (rewrite Hr; apply lookup_insert_eq).
  destruct (handleEvent_indexed b ev _ _ _ _ (channel_of_indexed ev key Hc)
              (parse_event_func b _ ev key f Hc Er Hz))
    as (-> & _ & _).
  done.
Qed.

Lemma class_registry_shared_witness :
  invocations
    (trace (__handleEvent controller2 (JOYBUTTONDOWN 0)
              (store (setCallback controller "a" a_button_callback initial_heap)))) =
    [("a_button_callback", [AInt 0])].
Proof.
  apply (proj2 (class_registry_shared controller controller2 initial_heap "a"
                  "a_button_callback" (JOYBUTTONDOWN 0)
                  eq_refl eq_refl ltac:(vm_compute; reflexivity) eq_refl)).
Defined.

(** Once [setCallbacks] has bound another dictionary to an instance, a
    [setCallback] through a plain instance no longer reaches it. *)
Lemma own_registry_apart (a b : t) (h : heap) (l : loc) (key : string)
    (callback : pyval) :
  _callbacks a = None ->
  l <> class_callbacks_loc ->
  registry (setCallbacks b l) (store (setCallback a key callback h)) =
    registry (setCallbacks b l) h.
Proof.
  intros Ea Hl. apply registry_setCallback_apart.
  unfold callbacks_ref. rewrite Ea. exact Hl.
Qed.

(** * Unmapped button indices *)

(** C10.  A button-down or button-up event whose index is outside 0 to 9
    is not ignored: the lookup in [BUTTONS] raises [KeyError] for the index,
    and nothing is invoked. *)
Theorem button_index_unmapped (self : t) (h : heap) (button : Z) :
  ~ 0 <= button <= 9 ->
  (outcome (__handleEvent self (JOYBUTTONDOWN button) h) =
     inl (KeyError (KInt button)) /\
   invocations (trace (__handleEvent self (JOYBUTTONDOWN button) h)) = []) /\
  (outcome (__handleEvent self (JOYBUTTONUP button) h) =
     inl (KeyError (KInt button)) /\
   invocations (trace (__handleEvent self (JOYBUTTONUP button) h)) = []).
Proof.
  intros Hb. apply BUTTONS_None in Hb.
  destruct (debug_print_unmapped self h (JOYBUTTONDOWN button) button
              (or_introl eq_refl) Hb) as (td & Hd & Hnd).
  destruct (debug_print_unmapped self h (JOYBUTTONUP button) button
              (or_intror eq_refl) Hb) as (tu & Hu & Hnu).
  unfold __handleEvent. destruct (DEBUG self).
  - rewrite (bind_raises _ _ _ _ _ _ Hd), (bind_raises _ _ _ _ _ _ Hu).
    done.
  - rewrite (bind_value _ _ _ _ _ _ Hd), (bind_value _ _ _ _ _ _ Hu).
    cbn [parse_event].
    rewrite !(button_dispatch_unmapped self h button _ Hb).
    cbn [trace store outcome]. rewrite !invocations_app, Hnd, Hnu. done.
Qed.

Lemma button_index_unmapped_witness :
  outcome (__handleEvent controller (JOYBUTTONDOWN 10) script_heap) =
    inl (KeyError (KInt 10)) /\
  outcome (__handleEvent controller (JOYBUTTONUP (-1)) script_heap) =
    inl (KeyError (KInt (-1))).
Proof.
  split.
  - apply (proj1 (proj1 (button_index_unmapped controller script_heap 10
                           ltac:(lia)))).
  - apply (proj1 (proj2 (button_index_unmapped controller script_heap (-1)
                           ltac:(lia)))).
Defined.

(** Within 0 to 9, and with every channel of [BUTTONS] present in the
    registry, a button event raises nothing. *)
Lemma button_index_mapped (self : t) (h : heap) (button : Z) :
  0 <= button <= 9 ->
  (forall c, c ∈ channels -> is_Some (registry self h !! c)) ->
  outcome (__handleEvent self (JOYBUTTONDOWN button) h) = inr tt /\
  outcome (__handleEvent self (JOYBUTTONUP button) h) = inr tt.
Proof.
  intros Hb Hall. destruct (BUTTONS_range button Hb) as [name Eb].
  destruct (Hall name (BUTTONS_channels button name Eb)) as [[|f] Er].
  - assert (indexed (JOYBUTTONDOWN button)) as Hd by (cbn; eauto).
    assert (indexed (JOYBUTTONUP button)) as Hu by (cbn; eauto).
    destruct (handleEvent_indexed self _ h _ _ _ Hd
                (button_dispatch_unset self h button 0 name Eb Er))
      as (_ & _ & ->).
    destruct (handleEvent_indexed self _ h _ _ _ Hu
                (button_dispatch_unset self h button 1 name Eb Er))
      as (_ & _ & ->).
    done.
  - assert (indexed (JOYBUTTONDOWN button)) as Hd by (cbn; eauto).
    assert (indexed (JOYBUTTONUP button)) as Hu by (cbn; eauto).
    destruct (handleEvent_indexed self _ h _ _ _ Hd
                (button_dispatch_func self h button 0 name f Eb Er))
      as (_ & _ & ->).
    destruct (handleEvent_indexed self _ h _ _ _ Hu
                (button_dispatch_func self h button 1 name f Eb Er))
      as (_ & _ & ->).
    done.
Qed.

(** * Construction and reconnection *)

(** With a device present the constructor succeeds and the instance holds
    an initialised handle on joystick 0; it has no registry of its own. *)
Lemma init_with_device (count : nat) :
  __init__ (S count) = inr controller.
Proof. reflexivity. Qed.

(** With no device [connect] returns [False] and leaves the instance as it
    was. *)
Lemma connect_without_device (self : t) :
  connect self 0 = (RetBool false, self).
Proof. reflexivity. Qed.

(** C6, the code at the failing input.  With a device present [connect]
    acquires the handle on joystick 0 and keeps every other attribute, but
    what it returns is [None], not [True]: the function ends without a
    [return] on that path. *)
Theorem connect_with_device_returns_None (self : t) (count : nat) :
  fst (connect self (S count)) = RetNone /\
  fst (connect self (S count)) <> RetBool true /\
  _controller (snd (connect self (S count))) = Some (mkJoystick 0 true) /\
  _callbacks (snd (connect self (S count))) = _callbacks self /\
  __hz (snd (connect self (S count))) = __hz self /\
  sticks_threshold (snd (connect self (S count))) = sticks_threshold self.
Proof. cbn. repeat split. discriminate. Qed.

(** C8, the code at the failing input.  With no device the constructor does
    fail, but with [TypeError]: the statement [raise(IOError, "No controller
    detected")] raises a tuple, which Python 3 rejects, so the [IOError] the
    source names never reaches the caller. *)
Theorem init_without_device_raises_TypeError :
  __init__ 0 = inl (TypeError "exceptions must derive from BaseException") /\
  (forall msg, __init__ 0 <> inl (IOError msg)).
Proof. split; [reflexivity|]. intros msg. discriminate. Qed.

(** * Every path of dispatch *)

Lemma AXIS_Some axis name :
  AXIS !! axis = Some name -> 0 <= axis <= 5.
Proof.
  intros H. unfold AXIS in H.
  apply elem_of_list_to_map_2 in H.
  repeat (apply elem_of_cons in H as [H|H]; [injection H as -> _; lia|]).
  by apply elem_of_nil in H.
Qed.

Lemma AXIS_None axis :
  ~ 0 <= axis <= 5 -> AXIS !! axis = None.
Proof.
  intros H. destruct (AXIS !! axis) as [name|] eqn:E; [|done].
  apply AXIS_Some in E. contradiction.
Qed.

Lemma channel_of_axis_None axis value :
  channel_of (JOYAXISMOTION axis value) = None -> ~ 0 <= axis <= 5.
Proof.
  unfold channel_of.
  destruct (Z.eqb_spec axis 0); [discriminate|].
  destruct (Z.eqb_spec axis 1); [discriminate|].
  destruct (Z.eqb_spec axis 2); [discriminate|].
  destruct (Z.eqb_spec axis 3); [discriminate|].
  destruct (Z.eqb_spec axis 4); [discriminate|].
  destruct (Z.eqb_spec axis 5); [discriminate|].
  lia.
Qed.

(** A stick sample in the dead zone, whatever the registry holds. *)
Lemma parse_event_dead_zone self h ev :
  in_dead_zone self ev = true ->
  parse_event self ev h = Result [] h (inr tt).
Proof.
  destruct ev as [b|b|a v|v|ty]; try discriminate.
  cbn [in_dead_zone]. intros Hz.
  apply andb_prop in Hz as [Ha Hb]. apply andb_prop in Ha as [Ha0 Ha3].
  apply negb_true_iff in Hb. apply parse_stick_within; [lia|done].
Qed.

(** An event that no channel is routed from. *)
Lemma parse_event_unrouted self h ev :
  channel_of ev = None ->
  parse_event self ev h =
    Result [] h (match ev with
                 | JOYBUTTONDOWN button | JOYBUTTONUP button =>
                     inl (KeyError (KInt button))
                 | _ => inr tt
                 end).
Proof.
  destruct ev as [b|b|a v|v|ty]; cbn [channel_of]; intros Hc.
  - by apply button_dispatch_unmapped.
  - by apply button_dispatch_unmapped.
  - apply parse_axis_other, (channel_of_axis_None a v), Hc.
  - discriminate.
  - reflexivity.
Qed.

(** The three ways [parse_event] ends: one invocation of the function
    registered for the event's channel, nothing at all, or a [KeyError]
    before anything is invoked.  The store is as it was in each. *)
Lemma parse_event_cases self h ev :
  (exists c f,
     channel_of ev = Some c /\ registry self h !! c = Some (PyFunc f) /\
     in_dead_zone self ev = false /\
     parse_event self ev h = Result [Invoke f (payload ev)] h (inr tt)) \/
  parse_event self ev h = Result [] h (inr tt) \/
  (exists k, parse_event self ev h = Result [] h (inl (KeyError k))).
Proof.
  destruct (in_dead_zone self ev) eqn:Hz.
  { right; left. by apply parse_event_dead_zone. }
  destruct (channel_of ev) as [c|] eqn:Hc.
  - destruct (registry self h !! c) as [[|f]|] eqn:Er.
    + right; left. by apply parse_event_unset with c.
    + left. exists c, f. repeat split; try done.
      by apply parse_event_func with c.
    + right; right. exists (KStr c).
      rewrite (parse_event_missing self h ev c Hc Er), Hz. done.
  - rewrite (parse_event_unrouted self h ev Hc).
    destruct ev; eauto.
Qed.

(** The debug printout ends normally or with the [KeyError] of an index. *)
Lemma debug_print_cases self h ev :
  exists tr o,
    debug_print self ev h = Result tr h o /\ invocations tr = [] /\
    (o = inr tt \/ exists k, o = inl (KeyError (KInt k))).
Proof.
  unfold debug_print. destruct (DEBUG self).
  2: { exists [], (inr tt). repeat split. by left. }
  unfold bind at 1 2. cbn [print emit trace store outcome app].
  destruct ev as [b|b|a v|v|ty].
  - destruct (print_name_run BUTTONS b OutText h) as [(n & E & ->)|[E ->]];
      eexists _, _; (split; [reflexivity|]); split; eauto.
  - destruct (print_name_run BUTTONS b OutText h) as [(n & E & ->)|[E ->]];
      eexists _, _; (split; [reflexivity|]); split; eauto.
  - destruct (print_name_run AXIS a OutText h) as [(n & E & ->)|[E ->]];
      eexists _, _; (split; [reflexivity|]); split; eauto.
  - eexists _, _. repeat split. by left.
  - eexists _, _. repeat split. by left.
Qed.

(** The same three ways for [__handleEvent], after a printout [td] that
    invokes nothing. *)
Lemma handleEvent_cases self h ev :
  exists td,
    invocations td = [] /\
    ((exists c f,
        channel_of ev = Some c /\ registry self h !! c = Some (PyFunc f) /\
        in_dead_zone self ev = false /\
        __handleEvent self ev h =
          Result (td ++ [Invoke f (payload ev)]) h (inr tt)) \/
     __handleEvent self ev h = Result td h (inr tt) \/
     (exists k, __handleEvent self ev h = Result td h (inl (KeyError k)))).
Proof.
  destruct (debug_print_cases self h ev) as (td & o & Hd & Hno & [-> |[k ->]]).
  2: { exists td. split; [done|]. right; right. exists (KInt k).
       unfold __handleEvent. apply (bind_raises _ _ _ _ _ _ Hd). }
  exists td. split; [done|].
  unfold __handleEvent. rewrite (bind_value _ _ _ _ _ _ Hd).
  destruct (parse_event_cases self h ev)
    as [(c & f & Hc & Er & Hz & ->)|[-> |[k ->]]]; cbn [trace store outcome].
  - left. exists c, f. done.
  - right; left. by rewrite app_nil_r.
  - right; right. exists k. by rewrite app_nil_r.
Qed.

Lemma in_tables_indexed ev : in_tables ev -> indexed ev.
Proof.
  destruct ev as [b|b|a v|v|ty]; cbn [in_tables indexed]; auto.
  - apply BUTTONS_range.
  - apply BUTTONS_range.
  - apply AXIS_range.
Qed.

(** On an axis index that has no name the printout raises, when it is on. *)
Lemma debug_print_axis_unmapped self h axis value :
  AXIS !! axis = None ->
  exists tr,
    debug_print self (JOYAXISMOTION axis value) h =
      Result tr h (if DEBUG self then inl (KeyError (KInt axis)) else inr tt) /\
    invocations tr = [].
Proof.
  intros Ha. unfold debug_print. destruct (DEBUG self).
  2: { exists []. by split. }
  unfold bind at 1 2. cbn [print emit trace store outcome app].
  destruct (print_name_run AXIS axis OutText h) as [(n & E & _)|[_ ->]];
    [congruence|].
  eexists; (split; [reflexivity|done]).
Qed.

(** * What dispatch never does *)

(** X1.  Dispatch of an event writes to no dictionary object: the store is
    left as it was, whatever the event, the registry and the debug flag,
    also when it raises.  (The callback it invokes is opaque here.) *)
Theorem dispatch_keeps_store (self : t) (h : heap) (ev : event) :
  store (__handleEvent self ev h) = h.
Proof.
  destruct (handleEvent_cases self h ev)
    as (td & _ & [(c & f & _ & _ & _ & ->)|[-> |[k ->]]]); reflexivity.
Qed.

(** X2.  The only exception dispatch raises is [KeyError], and a dispatch
    that raises has invoked nothing. *)
Theorem dispatch_raises_only_KeyError (self : t) (h : heap) (ev : event)
    (e : exn) :
  outcome (__handleEvent self ev h) = inl e ->
  (exists k, e = KeyError k) /\
  invocations (trace (__handleEvent self ev h)) = [].
Proof.
  destruct (handleEvent_cases self h ev)
    as (td & Hno & [(c & f & _ & _ & _ & ->)|[-> |[k ->]]]);
    cbn [outcome trace]; intros E; try discriminate E.
  injection E as <-. eauto.
Qed.

Lemma dispatch_raises_only_KeyError_witness :
  (exists k, KeyError (KInt 10) = KeyError k) /\
  invocations (trace (__handleEvent controller (JOYBUTTONDOWN 10) script_heap)) = [].
Proof.
  apply (dispatch_raises_only_KeyError controller script_heap (JOYBUTTONDOWN 10)
           (KeyError (KInt 10))).
  vm_compute; reflexivity.
Defined.

(** X3.  Whatever dispatch invokes is the function the registry binds to
    the event's channel, called with the event's payload; it is the only
    invocation of that dispatch, and the dispatch does not raise. *)
Theorem dispatch_invokes_registered (self : t) (h : heap) (ev : event)
    (f : callable) (args : list arg) :
  (f, args) ∈ invocations (trace (__handleEvent self ev h)) ->
  exists c,
    channel_of ev = Some c /\
    registry self h !! c = Some (PyFunc f) /\
    args = payload ev /\
    invocations (trace (__handleEvent self ev h)) = [(f, args)] /\
    outcome (__handleEvent self ev h) = inr tt.
Proof.
  destruct (handleEvent_cases self h ev)
    as (td & Hno & [(c & g & Hc & Er & _ & ->)|[-> |[k ->]]]);
    cbn [outcome trace]; rewrite ?invocations_app, Hno; intros Hin.
  - cbn in Hin. apply list_elem_of_singleton in Hin. injection Hin as -> ->.
    exists c. done.
  - by apply elem_of_nil in Hin.
  - by apply elem_of_nil in Hin.
Qed.

Lemma dispatch_invokes_registered_witness :
  exists c,
    channel_of (JOYBUTTONDOWN 0) = Some c /\
    registry controller script_heap !! c = Some (PyFunc "a_button_callback") /\
    [AInt 0] = payload (JOYBUTTONDOWN 0) /\
    invocations (trace (__handleEvent controller (JOYBUTTONDOWN 0) script_heap)) =
      [("a_button_callback", [AInt 0])] /\
    outcome (__handleEvent controller (JOYBUTTONDOWN 0) script_heap) = inr tt.
Proof.
  apply (dispatch_invokes_registered controller script_heap (JOYBUTTONDOWN 0)
           "a_button_callback" [AInt 0]).
  apply list_elem_of_In. vm_compute. left. reflexivity.
Defined.

(** * The hat, and axes outside the table *)

(** X4.  A hat-motion event with a function registered for ["hat"] invokes
    it exactly once with the pair of the event, unchanged. *)
Theorem hat_dispatch (self : t) (h : heap) (x y : Z) (f : callable) :
  registry self h !! "hat" = Some (PyFunc f) ->
  invocations (trace (__handleEvent self (JOYHATMOTION (x, y)) h)) =
    [(f, [ATuple x y])] /\
  outcome (__handleEvent self (JOYHATMOTION (x, y)) h) = inr tt.
Proof.
  intros Er.
  destruct (handleEvent_indexed self (JOYHATMOTION (x, y)) h _ _ _ I
              (value_dispatch_func self h "hat" (ATuple x y) f Er))
    as (-> & _ & ->).
  done.
Qed.

Lemma hat_dispatch_witness :
  invocations (trace (__handleEvent script_controller (JOYHATMOTION (-1, 1))
                        main_heap)) =
    [("hat_callback", [ATuple (-1) 1])] /\
  outcome (__handleEvent script_controller (JOYHATMOTION (-1, 1)) main_heap) =
    inr tt.
Proof.
  apply (hat_dispatch script_controller main_heap (-1) 1 "hat_callback").
  vm_compute; reflexivity.
Defined.

(** X5.  An axis-motion event whose index is outside 0 to 5 invokes
    nothing.  With the debug flag off it is ignored; with the debug flag on
    the printout looks the index up in [AXIS] and raises [KeyError] for
    it. *)
Theorem axis_index_unmapped (self : t) (h : heap) (axis : Z) (value : float) :
  ~ 0 <= axis <= 5 ->
  invocations (trace (__handleEvent self (JOYAXISMOTION axis value) h)) = [] /\
  outcome (__handleEvent self (JOYAXISMOTION axis value) h) =
    if DEBUG self then inl (KeyError (KInt axis)) else inr tt.
Proof.
  intros Ha.
  destruct (debug_print_axis_unmapped self h axis value (AXIS_None axis Ha))
    as (td & Hd & Hno).
  unfold __handleEvent. destruct (DEBUG self).
  - rewrite (bind_raises _ _ _ _ _ _ Hd). done.
  - rewrite (bind_value _ _ _ _ _ _ Hd), (parse_axis_other self h axis value Ha).
    cbn [trace outcome]. by rewrite app_nil_r.
Qed.

Lemma axis_index_unmapped_witness :
  outcome (__handleEvent controller (JOYAXISMOTION 6 1) script_heap) = inr tt /\
  outcome (__handleEvent (set_DEBUG controller true) (JOYAXISMOTION 6 1)
             script_heap) = inl (KeyError (KInt 6)).
Proof.
  split.
  - apply (proj2 (axis_index_unmapped controller script_heap 6 1 ltac:(lia))).
  - apply (proj2 (axis_index_unmapped (set_DEBUG controller true) script_heap
                    6 1 ltac:(lia))).
Defined.

(** X6.  For an event whose index is in the tables, the debug flag changes
    what is printed and nothing else: the invocations, the outcome and the
    store are the same with the flag on and off. *)
Theorem debug_keeps_dispatch (self : t) (h : heap) (ev : event) (b1 b2 : bool) :
  in_tables ev ->
  invocations (trace (__handleEvent (set_DEBUG self b1) ev h)) =
    invocations (trace (__handleEvent (set_DEBUG self b2) ev h)) /\
  outcome (__handleEvent (set_DEBUG self b1) ev h) =
    outcome (__handleEvent (set_DEBUG self b2) ev h) /\
  store (__handleEvent (set_DEBUG self b1) ev h) =
    store (__handleEvent (set_DEBUG self b2) ev h).
Proof.
  intros Hi. apply in_tables_indexed in Hi.
  assert (parse_event (set_DEBUG self b1) ev h =
            parse_event (set_DEBUG self b2) ev h) as E
    by (destruct ev; reflexivity).
  destruct (handleEvent_indexed (set_DEBUG self b1) ev h _ _ _ Hi
              (result_eta _)) as (-> & -> & ->).
  destruct (handleEvent_indexed (set_DEBUG self b2) ev h _ _ _ Hi
              (result_eta _)) as (-> & -> & ->).
  by rewrite E.
Qed.

Lemma debug_keeps_dispatch_witness :
  invocations (trace (__handleEvent (set_DEBUG controller true)
                        (JOYAXISMOTION 1 0.5) script_heap)) =
    invocations (trace (__handleEvent (set_DEBUG controller false)
                          (JOYAXISMOTION 1 0.5) script_heap)).
Proof.
  apply (proj1 (debug_keeps_dispatch controller script_heap (JOYAXISMOTION 1 0.5)
                  true false ltac:(cbn; lia))).
Defined.

(** * The loop over the events of a tick *)

Section Laws.
Context {A B C : Type}.

Lemma bind_ret (a : A) (k : A -> Py B) h : bind (ret a) k h = k a h.
Proof. unfold bind, ret. cbn. by destruct (k a h). Qed.

Lemma bind_assoc (m : Py A) (k : A -> Py B) (k' : B -> Py C) h :
  bind (bind m k) k' h = bind m (fun a => bind (k a) k') h.
Proof.
  unfold bind. destruct (m h) as [t s [e|a]]; cbn; [done|].
  destruct (k a s) as [t1 s1 [e|b]]; cbn; [done|].
  destruct (k' b s1) as [t2 s2 o]; cbn. by rewrite app_assoc.
Qed.

Lemma bind_ext (m : Py A) (k k' : A -> Py B) h :
  (forall a h', k a h' = k' a h') -> bind m k h = bind m k' h.
Proof.
  intros E. unfold bind. destruct (m h) as [t s [e|a]]; cbn; [done|].
  by rewrite E.
Qed.
End Laws.

(** A run of [__handleEvent] written out, with the store it leaves. *)
Lemma handleEvent_result self h ev :
  __handleEvent self ev h =
    Result (trace (__handleEvent self ev h)) h (outcome (__handleEvent self ev h)).
Proof.
  destruct (handleEvent_cases self h ev)
    as (td & _ & [(c & f & _ & _ & _ & ->)|[-> |[k ->]]]); reflexivity.
Qed.


Lemma handle_events_cons_value self h ev rest :
  outcome (__handleEvent self ev h) = inr tt ->
  handle_events self (ev :: rest) h =
    Result (trace (__handleEvent self ev h) ++ trace (handle_events self rest h))
           (store (handle_events self rest h))
           (outcome (handle_events self rest h)).
Proof.
  intros E. cbn [handle_events].
  pose proof (handleEvent_result self h ev) as Hr. rewrite E in Hr.
  by rewrite (bind_value _ _ _ _ _ _ Hr).
Qed.


Lemma handle_events_app self evs1 evs2 h :
  handle_events self (evs1 ++ evs2) h =
    bind (handle_events self evs1) (fun _ => handle_events self evs2) h.
Proof.
  revert h. induction evs1 as [|ev evs1 IH]; intros h.
  - cbn [app handle_events]. by rewrite bind_ret.
  - cbn [app handle_events]. rewrite bind_assoc.
    apply bind_ext. intros _ h'. apply IH.
Qed.





(** X9.  How the pending events are split into ticks does not matter: the
    listener over a sequence of batches does what one loop over all their
    events in order does. *)
Theorem runListener_batches (self : t) (ticks : list (list event)) (h : heap) :
  runListener self ticks h = handle_events self (concat ticks) h.
Proof.
  revert h. induction ticks as [|events later IH]; intros h; [done|].
  cbn [runListener concat]. rewrite handle_events_app.
  apply bind_ext. intros _ h'. apply IH.
Qed.

(** * Registrations, one after another *)

(** X10.  Registering twice for the same name keeps the last callback only:
    the store is the one the second registration alone would leave. *)
Theorem setCallback_last_wins (self : t) (h : heap) (key : string)
    (first second : pyval) :
  store (setCallback self key second (store (setCallback self key first h))) =
    store (setCallback self key second h).
Proof.
  rewrite !setCallback_run. cbn [store]. unfold registry.
  rewrite lookup_total_insert_eq.
  by rewrite !insert_insert_eq.
Qed.

(** X11.  Registrations for two different names can be made in either
    order. *)
Theorem setCallback_commutes (self : t) (h : heap) (key1 key2 : string)
    (v1 v2 : pyval) :
  key1 <> key2 ->
  store (setCallback self key2 v2 (store (setCallback self key1 v1 h))) =
    store (setCallback self key1 v1 (store (setCallback self key2 v2 h))).
Proof.
  intros Hne. rewrite !setCallback_run. cbn [store]. unfold registry.
  rewrite !lookup_total_insert_eq, !insert_insert_eq.
  by rewrite (insert_insert_ne (h !!! callbacks_ref self) key1 key2).
Qed.

Lemma setCallback_commutes_witness :
  store (setCallback controller "hat" l_stick_callback
           (store (setCallback controller "a" a_button_callback initial_heap))) =
    store (setCallback controller "a" a_button_callback
             (store (setCallback controller "hat" l_stick_callback initial_heap))).
Proof.
  apply (setCallback_commutes controller initial_heap "a" "hat"
           a_button_callback l_stick_callback).
  discriminate.
Defined.

(** X12.  Register, then dispatch: on any controller and any store, after
    [setCallback(c, f)] an event routed to channel [c], unless it is a stick
    sample in the dead zone, invokes [f] exactly once with the payload of
    the event and raises nothing. *)
Theorem register_then_dispatch (self : t) (h : heap) (c : string)
    (f : callable) (ev : event) :
  channel_of ev = Some c ->
  in_dead_zone self ev = false ->
  invocations (trace (__handleEvent self ev
                        (store (setCallback self c (PyFunc f) h)))) =
    [(f, payload ev)] /\
  outcome (__handleEvent self ev (store (setCallback self c (PyFunc f) h))) =
    inr tt.
Proof.
  intros Hc Hz.
  assert (registry self (store (setCallback self c (PyFunc f) h)) !! c =
            Some (PyFunc f)) as Er.
  { rewrite (registry_setCallback self h self c (PyFunc f) eq_refl).
    apply lookup_insert_eq. }
  destruct (handleEvent_indexed self ev _ _ _ _ (channel_of_indexed ev c Hc)
              (parse_event_func self _ ev c f Hc Er Hz))
    as (-> & _ & ->).
  done.
Qed.

Lemma register_then_dispatch_witness :
  invocations
    (trace (__handleEvent (setCallbacks controller partial_loc)
              (JOYAXISMOTION 4 (-1))
              (store (setCallback (setCallbacks controller partial_loc)
                        "left_trigger" (PyFunc "l_trigger_callback")
                        partial_heap)))) =
    [("l_trigger_callback", [AFloat (-1)])].
Proof.
  apply (proj1 (register_then_dispatch (setCallbacks controller partial_loc)
                  partial_heap "left_trigger" "l_trigger_callback"
                  (JOYAXISMOTION 4 (-1)) eq_refl eq_refl)).
Defined.

(** X13.  Registering [None] unregisters: afterwards an event routed to that
    channel invokes nothing and raises nothing, whatever was registered
    before and even if the channel was missing from the registry. *)
Theorem unregister_silences (self : t) (h : heap) (c : string) (ev : event) :
  channel_of ev = Some c ->
  invocations (trace (__handleEvent self ev
                        (store (setCallback self c PyNone h)))) = [] /\
  outcome (__handleEvent self ev (store (setCallback self c PyNone h))) = inr tt.
Proof.
  intros Hc.
  assert (registry self (store (setCallback self c PyNone h)) !! c =
            Some PyNone) as Er.
  { rewrite (registry_setCallback self h self c PyNone eq_refl).
    apply lookup_insert_eq. }
  destruct (handleEvent_indexed self ev _ _ _ _ (channel_of_indexed ev c Hc)
              (parse_event_unset self _ ev c Hc Er))
    as (-> & _ & ->).
  done.
Qed.

Lemma unregister_silences_witness :
  invocations (trace (__handleEvent controller (JOYBUTTONDOWN 0)
                        (store (setCallback controller "a" PyNone script_heap)))) =
    [] /\
  outcome (__handleEvent (setCallbacks controller partial_loc) (JOYBUTTONDOWN 0)
             (store (setCallback (setCallbacks controller partial_loc) "a"
                       PyNone partial_heap))) = inr tt.
Proof.
  split.
  - apply (proj1 (unregister_silences controller script_heap "a"
                    (JOYBUTTONDOWN 0) ltac:(vm_compute; reflexivity))).
  - apply (proj2 (unregister_silences (setCallbacks controller partial_loc)
                    partial_heap "a" (JOYBUTTONDOWN 0)
                    ltac:(vm_compute; reflexivity))).
Defined.

(** X14.  After [setCallbacks(d)] a [setCallback] through the same instance
    is an item assignment on the caller's dictionary [d] itself: [d] gains
    the entry, while the dictionary of the class, and with it the registry
    of every instance without a dictionary of its own, stays as it was. *)
Theorem setCallback_writes_callers_dict (self other : t) (h : heap)
    (callbacks : loc) (key : string) (callback : pyval) :
  callbacks <> class_callbacks_loc ->
  _callbacks other = None ->
  store (setCallback (setCallbacks self callbacks) key callback h) !!! callbacks =
    <[key := callback]> (h !!! callbacks) /\
  store (setCallback (setCallbacks self callbacks) key callback h)
    !!! class_callbacks_loc = h !!! class_callbacks_loc /\
  registry other (store (setCallback (setCallbacks self callbacks) key callback h)) =
    registry other h.
Proof.
  intros Hl Eo. rewrite setCallback_run. cbn [store].
  change (callbacks_ref (setCallbacks self callbacks)) with callbacks.
  unfold registry, callbacks_ref. rewrite Eo. cbn [default].
  rewrite lookup_total_insert_eq, lookup_total_insert_ne by done.
  done.
Qed.

Lemma setCallback_writes_callers_dict_witness :
  store (setCallback (setCallbacks controller partial_loc) "a" a_button_callback
           partial_heap) !!! partial_loc =
    <["a" := a_button_callback]> (partial_heap !!! partial_loc) /\
  registry controller2
    (store (setCallback (setCallbacks controller partial_loc) "a"
              a_button_callback partial_heap)) =
    registry controller2 partial_heap.
Proof.
  pose proof (setCallback_writes_callers_dict controller controller2 partial_heap
                partial_loc "a" a_button_callback ltac:(discriminate) eq_refl)
    as (H1 & _ & H3).
  split; [exact H1 | exact H3].
Defined.

(** * The debug callbacks *)

(** X15.  [setDebugCallbacks] binds every channel: on the controller it
    returns, an event routed to channel [c], unless it is a stick sample in
    the dead zone, invokes the lambda built for [c] exactly once with the
    payload of the event, and raises nothing. *)
Theorem setDebugCallbacks_binds_all (self : t) (h : heap) (ev : event)
    (c : string) :
  channel_of ev = Some c ->
  in_dead_zone self ev = false ->
  outcome (setDebugCallbacks self h) =
    inr (setCallbacks self (fresh (dom h))) /\
  invocations (trace (__handleEvent (setCallbacks self (fresh (dom h))) ev
                        (store (setDebugCallbacks self h)))) =
    [("lambda:" +:+ c, payload ev)] /\
  outcome (__handleEvent (setCallbacks self (fresh (dom h))) ev
             (store (setDebugCallbacks self h))) = inr tt.
Proof.
  intros Hc Hz. rewrite setDebugCallbacks_run. cbn [store outcome].
  split; [done|].
  set (self' := setCallbacks self (fresh (dom h))).
  set (h' := <[fresh (dom h) := debug_callbacks]> h).
  assert (registry self' h' !! c = Some (PyFunc ("lambda:" +:+ c))) as Er.
  { unfold registry, self', h'.
    cbn [callbacks_ref setCallbacks _callbacks default].
    rewrite lookup_total_insert_eq.
    apply debug_callbacks_func, (channel_of_channels ev), Hc. }
  destruct (handleEvent_indexed self' ev h' _ _ _ (channel_of_indexed ev c Hc)
              (parse_event_func self' h' ev c _ Hc Er Hz))
    as (-> & _ & ->).
  done.
Qed.

Lemma setDebugCallbacks_binds_all_witness :
  invocations
    (trace (__handleEvent (setCallbacks controller (fresh (dom initial_heap)))
              (JOYHATMOTION (0, 1))
              (store (setDebugCallbacks controller initial_heap)))) =
    [("lambda:hat", [ATuple 0 1])].
Proof.
  apply (proj1 (proj2 (setDebugCallbacks_binds_all controller initial_heap
                         (JOYHATMOTION (0, 1)) "hat" eq_refl eq_refl))).
Defined.

(** X16.  [setDebugCallbacks] builds a dictionary of its own: every
    dictionary object that exists, the one of the class among them, is left
    as it was, so no other controller changes its registry. *)
Theorem setDebugCallbacks_frame (self : t) (h : heap) (l : loc) :
  is_Some (h !! l) ->
  store (setDebugCallbacks self h) !! l = h !! l /\
  store (setDebugCallbacks self h) !!! l = h !!! l.
Proof.
  intros Hl. rewrite setDebugCallbacks_run. cbn [store].
  assert (fresh (dom h) <> l) as Hne.
  { intros <-. apply elem_of_dom in Hl. by apply is_fresh in Hl. }
  by rewrite lookup_insert_ne, lookup_total_insert_ne.
Qed.

Lemma setDebugCallbacks_frame_witness :
  store (setDebugCallbacks controller initial_heap) !!! class_callbacks_loc =
    initial_heap !!! class_callbacks_loc.
Proof.
  assert (initial_heap !! class_callbacks_loc = Some class_callbacks) as E
    by apply lookup_singleton_eq.
  apply (proj2 (setDebugCallbacks_frame controller initial_heap
                  class_callbacks_loc (mk_is_Some _ _ E))).
Defined.

(** * A registry that binds all fifteen channels *)

Lemma class_callbacks_complete : complete class_callbacks.
Proof.
  intros c H. unfold channels in H.
  repeat (apply elem_of_cons in H as [->|H]; [vm_compute; eauto|]).
  by apply elem_of_nil in H.
Qed.

Lemma channel_of_in_tables ev : in_tables ev -> is_Some (channel_of ev) \/
  exists ty, ev = OTHEREVENT ty.
Proof.
  destruct ev as [b|b|a v|v|ty]; cbn [in_tables channel_of]; eauto.
  - intros Hb. left. by apply BUTTONS_range.
  - intros Hb. left. by apply BUTTONS_range.
  - intros Ha. left.
    assert (a = 0 \/ a = 1 \/ a = 2 \/ a = 3 \/ a = 4 \/ a = 5) as Hc by lia.
    repeat (destruct Hc as [->|Hc]); try subst a; cbn; eauto.
Qed.

(** With a complete registry an event that has a channel is dispatched
    without exception. *)
Lemma parse_event_complete self h ev c :
  complete (registry self h) ->
  channel_of ev = Some c ->
  outcome (parse_event self ev h) = inr tt.
Proof.
  intros Hall Hc.
  destruct (Hall c (channel_of_channels ev c Hc)) as [[|f] Er].
  - by rewrite (parse_event_unset self h ev c Hc Er).
  - destruct (in_dead_zone self ev) eqn:Hz.
    + by rewrite (parse_event_dead_zone self h ev Hz).
    + by rewrite (parse_event_func self h ev c f Hc Er Hz).
Qed.

(** With a complete registry an accepted event is dispatched without
    exception. *)
Lemma dispatch_accepted self h ev :
  complete (registry self h) ->
  accepted self ev ->
  outcome (__handleEvent self ev h) = inr tt.
Proof.
  intros Hall.
  assert (forall ev', in_tables ev' ->
            outcome (__handleEvent self ev' h) = inr tt) as Htab.
  { intros ev' Hi.
    destruct (handleEvent_indexed self ev' h _ _ _ (in_tables_indexed ev' Hi)
                (result_eta _)) as (_ & _ & ->).
    destruct (channel_of_in_tables ev' Hi) as [[c Hc]|[ty ->]]; [|done].
    by apply parse_event_complete with c. }
  destruct ev as [b|b|a v|v|ty]; cbn [accepted]; intros Hacc;
    try (by apply Htab).
  destruct (decide (0 <= a <= 5)) as [Ha|Ha]; [by apply Htab|].
  destruct Hacc as [Hd|Hin]; [|contradiction].
  destruct (debug_print_axis_unmapped self h a v (AXIS_None a Ha))
    as (td & Hp & _).
  rewrite Hd in Hp. unfold __handleEvent.
  rewrite (bind_value _ _ _ _ _ _ Hp), (parse_axis_other self h a v Ha).
  done.
Qed.

(** X17.  The registry stays complete under [setCallback]: if it binds all
    fifteen channels before, it binds them after, whatever name and callback
    are registered. *)
Theorem setCallback_keeps_complete (self : t) (h : heap) (key : string)
    (callback : pyval) :
  complete (registry self h) ->
  complete (registry self (store (setCallback self key callback h))).
Proof.
  intros Hall c Hc.
  rewrite (registry_setCallback self h self key callback eq_refl).
  apply lookup_insert_is_Some'. right. by apply Hall.
Qed.

Lemma setCallback_keeps_complete_witness :
  is_Some (registry controller
             (store (setCallback controller "bogus" a_button_callback
                       initial_heap)) !! "hat").
Proof.
  apply (setCallback_keeps_complete controller initial_heap "bogus"
           a_button_callback class_callbacks_complete "hat").
  unfold channels. apply list_elem_of_In. simpl. tauto.
Defined.

(** X18.  With a registry that binds all fifteen channels, dispatch raises
    exactly on the events it does not accept: a button index outside 0 to 9,
    or, with the debug flag on, an axis index outside 0 to 5. *)
Theorem complete_dispatch (self : t) (h : heap) (ev : event) :
  complete (registry self h) ->
  outcome (__handleEvent self ev h) = inr tt <-> accepted self ev.
Proof.
  intros Hall. split.
  - destruct ev as [b|b|a v|v|ty]; cbn [accepted]; try done.
    + intros Ho. destruct (decide (0 <= b <= 9)) as [|Hb]; [done|].
      apply BUTTONS_None in Hb.
      destruct (debug_print_unmapped self h (JOYBUTTONDOWN b) b
                  (or_introl eq_refl) Hb) as (td & Hd & _).
      unfold __handleEvent in Ho. destruct (DEBUG self).
      * by rewrite (bind_raises _ _ _ _ _ _ Hd) in Ho.
      * rewrite (bind_value _ _ _ _ _ _ Hd) in Ho. cbn [parse_event] in Ho.
        by rewrite (button_dispatch_unmapped self h b _ Hb) in Ho.
    + intros Ho. destruct (decide (0 <= b <= 9)) as [|Hb]; [done|].
      apply BUTTONS_None in Hb.
      destruct (debug_print_unmapped self h (JOYBUTTONUP b) b
                  (or_intror eq_refl) Hb) as (td & Hd & _).
      unfold __handleEvent in Ho. destruct (DEBUG self).
      * by rewrite (bind_raises _ _ _ _ _ _ Hd) in Ho.
      * rewrite (bind_value _ _ _ _ _ _ Hd) in Ho. cbn [parse_event] in Ho.
        by rewrite (button_dispatch_unmapped self h b _ Hb) in Ho.
    + intros Ho. destruct (decide (0 <= a <= 5)) as [|Ha]; [by right|]. left.
      destruct (debug_print_axis_unmapped self h a v (AXIS_None a Ha))
        as (td & Hd & _).
      unfold __handleEvent in Ho. destruct (DEBUG self); [|done].
      by rewrite (bind_raises _ _ _ _ _ _ Hd) in Ho.
  - by apply dispatch_accepted.
Qed.

Lemma complete_dispatch_witness :
  outcome (__handleEvent controller (JOYBUTTONDOWN 9) initial_heap) = inr tt <->
  accepted controller (JOYBUTTONDOWN 9).
Proof.
  apply (complete_dispatch controller initial_heap (JOYBUTTONDOWN 9)).
  exact class_callbacks_complete.
Defined.

(** * What dispatch reads of the controller *)

(** X19.  Dispatch reads three attributes of the controller: the registry
    it refers to, the threshold and the debug flag.  Two controllers that
    agree on them handle every event alike, so [setHz] and [connect], which
    change neither, have no effect on dispatch. *)
Theorem dispatch_reads_three_attributes (self1 self2 : t) (h : heap)
    (ev : event) :
  _callbacks self1 = _callbacks self2 ->
  sticks_threshold self1 = sticks_threshold self2 ->
  DEBUG self1 = DEBUG self2 ->
  __handleEvent self1 ev h = __handleEvent self2 ev h.
Proof.
  destruct self1 as [j1 c1 k1 z1 x1 d1], self2 as [j2 c2 k2 z2 x2 d2].
  cbn. intros -> -> ->. destruct ev; reflexivity.
Qed.

Lemma dispatch_reads_three_attributes_witness :
  __handleEvent (snd (connect (setHz controller 60) 1)) (JOYBUTTONDOWN 0)
    script_heap =
  __handleEvent controller (JOYBUTTONDOWN 0) script_heap.
Proof.
  apply (dispatch_reads_three_attributes (snd (connect (setHz controller 60) 1))
           controller script_heap (JOYBUTTONDOWN 0) eq_refl eq_refl eq_refl).
Defined.

(** * The button table *)

(** X20.  No two button indices share a channel: a callback registered for
    the channel of one button is reached by the events of that button
    only. *)
Theorem BUTTONS_injective (button1 button2 : Z) (name : string) :
  BUTTONS !! button1 = Some name ->
  BUTTONS !! button2 = Some name ->
  button1 = button2.
Proof.
  intros H1 H2. unfold BUTTONS in H1, H2.
  apply elem_of_list_to_map_2 in H1. apply elem_of_list_to_map_2 in H2.
  repeat (apply elem_of_cons in H1 as [H1|H1];
          [simplify_eq;
           repeat (apply elem_of_cons in H2 as [H2|H2]; [by simplify_eq|]);
           by apply elem_of_nil in H2|]).
  by apply elem_of_nil in H1.
Qed.

Lemma BUTTONS_injective_witness : 8 = 8.
Proof.
  apply (BUTTONS_injective 8 8 "left_stick_button");
    vm_compute; reflexivity.
Defined.

(** * The script *)

Lemma main_heap_complete : complete (registry script_controller main_heap).
Proof.
  intros c H. unfold channels in H.
  repeat (apply elem_of_cons in H as [->|H]; [vm_compute; eauto|]).
  by apply elem_of_nil in H.
Qed.

(** With a device attached the script comes to its listener with the six
    registrations made, the poll rate 60 and the threshold 0.3. *)
Lemma main_reaches_listener count ticks :
  main (S count) ticks initial_heap =
    runListener script_controller ticks main_heap.
Proof.
  unfold main. cbn [__init__ Nat.ltb Nat.leb].
  repeat (rewrite (bind_value _ _ _ _ _ _ (setCallback_run _ _ _ _));
          cbn [trace store outcome app]).
  rewrite <- result_eta. reflexivity.
Qed.

(** With no device the script ends at the constructor: nothing is
    registered and no event is handled. *)
Lemma main_without_device ticks h :
  main 0 ticks h =
    Result [] h (inl (TypeError "exceptions must derive from BaseException")).
Proof. reflexivity. Qed.

Lemma handle_events_accepted self h events :
  complete (registry self h) ->
  Forall (accepted self) events ->
  outcome (handle_events self events h) = inr tt /\
  store (handle_events self events h) = h.
Proof.
  intros Hall. induction 1 as [|ev rest Hev _ [IHo IHs]]; [done|].
  pose proof (dispatch_accepted self h ev Hall Hev) as Ho.
  by rewrite (handle_events_cons_value self h ev rest Ho).
Qed.

(** X21.  The script, started with a device attached, keeps listening: as
    long as the button indices of the events delivered are within 0 to 9,
    no tick raises, whatever the axis, hat and other events, and the
    registry stays as the six registrations made it. *)
Theorem main_keeps_listening (count : nat) (ticks : list (list event)) :
  Forall (Forall (accepted script_controller)) ticks ->
  outcome (main (S count) ticks initial_heap) = inr tt /\
  store (main (S count) ticks initial_heap) = main_heap.
Proof.
  intros Hacc. rewrite main_reaches_listener.
  induction Hacc as [|events later Hev _ [IHo IHs]]; [done|].
  cbn [runListener].
  destruct (handle_events_accepted script_controller main_heap events
              main_heap_complete Hev) as [Ho Hs].
  pose proof (result_eta (handle_events script_controller events main_heap))
    as Hr.
  rewrite Ho, Hs in Hr.
  by rewrite (bind_value _ _ _ _ _ _ Hr).
Qed.

Lemma main_keeps_listening_witness :
  outcome (main 1 [[JOYBUTTONDOWN 0; JOYAXISMOTION 7 1]; [];
                   [JOYHATMOTION (0, 1)]] initial_heap) = inr tt.
Proof.
  apply (proj1 (main_keeps_listening 0
                  [[JOYBUTTONDOWN 0; JOYAXISMOTION 7 1]; [];
                   [JOYHATMOTION (0, 1)]]
                  ltac:(repeat constructor; cbn; lia))).
Defined.

(** * Not-a-number *)

Lemma ltb_nan_r (x : float) : (x <? nan)%float = false.
Proof.
  rewrite ltb_spec. unfold SFltb.
  change (Prim2SF nan) with S754_nan.
  destruct (Prim2SF x) as [s|s| |s m e]; reflexivity.
Qed.

Lemma ltb_nan_l (x : float) : (nan <? x)%float = false.
Proof.
  rewrite ltb_spec. unfold SFltb.
  change (Prim2SF nan) with S754_nan. reflexivity.
Qed.

(** X22.  A comparison with NaN is false, so a stick sample that is NaN is
    never delivered, and a threshold that is NaN switches stick delivery
    off: in both cases an event on axis 0 to 3 invokes nothing and raises
    nothing, whatever the registry holds. *)
Theorem nan_suppresses_stick (self : t) (h : heap) (axis : Z) (value : float) :
  0 <= axis <= 3 ->
  value = nan \/ sticks_threshold self = nan ->
  invocations (trace (__handleEvent self (JOYAXISMOTION axis value) h)) = [] /\
  outcome (__handleEvent self (JOYAXISMOTION axis value) h) = inr tt.
Proof.
  intros Ha Hnan.
  assert (beyond_threshold self value = false) as Hb.
  { unfold beyond_threshold. destruct Hnan as [-> | ->].
    - change (abs nan) with nan. apply ltb_nan_r.
    - apply ltb_nan_l. }
  assert (indexed (JOYAXISMOTION axis value)) as Hi
    by (apply AXIS_range; lia).
  destruct (handleEvent_indexed self _ h _ _ _ Hi
              (parse_stick_within self h axis value Ha Hb))
    as (-> & _ & ->).
  done.
Qed.

Lemma nan_suppresses_stick_witness :
  invocations (trace (__handleEvent controller (JOYAXISMOTION 1 nan)
                        script_heap)) = [] /\
  invocations (trace (__handleEvent (set_sticks_threshold controller nan)
                        (JOYAXISMOTION 1 1) script_heap)) = [].
Proof.
  split.
  - apply (proj1 (nan_suppresses_stick controller script_heap 1 nan
                    ltac:(lia) (or_introl eq_refl))).
  - apply (proj1 (nan_suppresses_stick (set_sticks_threshold controller nan)
                    script_heap 1 1 ltac:(lia) (or_intror eq_refl))).
Defined.
